(** * Crime-query core: query normalisation, filter construction, record search

    A shallow embedding of the query/record handling code of the repository
    ([engines/data_handler.py], class [DynamicDataHandler], and
    [Crime_Query/engines/query_builder.py]) together with the properties
    established about it.

    Conventions of the embedding:
    - a Python [str] is the sequence of its Unicode code points;
    - a Python [dict] with string keys is a finite map ([gmap]); Python's [==]
      on dicts ignores insertion order, and so does equality of finite maps;
      the one dict whose iteration order is observable (the synonym table) is
      an insertion-ordered association list;
    - a raised exception is the [Raise] result of an error monad;
    - the calls to [log_info]/[log_error] only write to the log file and the
      console, never influence a returned value, and are left out;
    - [translate_synonyms] assigns into the dict it is given, so it is embedded
      over an explicit object store. *)

From Stdlib Require Import ZArith NArith String Ascii.
From stdpp Require Import gmap list fin_maps.

Local Set Warnings "-register-all".
Local Open Scope N_scope.

(** ** Python strings *)

Abbreviation pystr := (list N).

Module PyStr.

(** Literals are written as UTF-8 text and decoded to code points. *)
Fixpoint u (s : string) : pystr :=
  match s with
  | EmptyString => []
  | String a r =>
      let b := N_of_ascii a in
      if b <? 128 then b :: u r
      else if b <? 224 then
        match r with
        | String a1 r1 => ((b - 192) * 64 + (N_of_ascii a1 - 128)) :: u r1
        | _ => []
        end
      else if b <? 240 then
        match r with
        | String a1 (String a2 r2) =>
            ((b - 224) * 4096 + (N_of_ascii a1 - 128) * 64
             + (N_of_ascii a2 - 128)) :: u r2
        | _ => []
        end
      else
        match r with
        | String a1 (String a2 (String a3 r3)) =>
            ((b - 240) * 262144 + (N_of_ascii a1 - 128) * 4096
             + (N_of_ascii a2 - 128) * 64 + (N_of_ascii a3 - 128)) :: u r3
        | _ => []
        end
  end.

Arguments u s : simpl never.

(** [str.isspace] on one character: the code points CPython treats as
    whitespace. *)
Definition isspace (c : N) : bool :=
  ((9 <=? c) && (c <=? 13)) || ((28 <=? c) && (c <=? 32))
  || (c =? 133) || (c =? 160) || (c =? 5760)
  || ((8192 <=? c) && (c <=? 8202))
  || (c =? 8232) || (c =? 8233) || (c =? 8239) || (c =? 8287)
  || (c =? 12288).

Fixpoint lstrip (s : pystr) : pystr :=
  match s with
  | c :: s' => if isspace c then lstrip s' else s
  | [] => []
  end.

Definition rstrip (s : pystr) : pystr := rev (lstrip (rev s)).

(** [s.strip()] *)
Definition strip (s : pystr) : pystr := rstrip (lstrip s).

(** [s.split()]: the maximal runs of non-whitespace characters; [word] is
    the run being read, most recent character first. *)
Fixpoint split_from (word : pystr) (s : pystr) : list pystr :=
  match s with
  | [] => match word with [] => [] | _ => [rev word] end
  | c :: s' =>
      if isspace c
      then match word with
           | [] => split_from [] s'
           | _ => rev word :: split_from [] s'
           end
      else split_from (c :: word) s'
  end.

Definition str_split (s : pystr) : list pystr := split_from [] s.

Fixpoint startswith (prefix s : pystr) : bool :=
  match prefix, s with
  | [], _ => true
  | p :: prefix', c :: s' => (p =? c) && startswith prefix' s'
  | _ :: _, [] => false
  end.

(** [sub in s] *)
Fixpoint contains (sub s : pystr) : bool :=
  startswith sub s ||
  match s with
  | [] => false
  | _ :: s' => contains sub s'
  end.

(** [str.lower] restricted to the characters A-Z; the scripts of the synonym
    table (Devanagari, Bengali, Tamil, Telugu, Kannada, Gurmukhi) have no
    letter case.  Used as the instance on which examples are evaluated. *)
Definition ascii_lower (s : pystr) : pystr :=
  map (fun c => if (65 <=? c) && (c <=? 90) then c + 32 else c) s.

End PyStr.
Export PyStr.

(** ** Python values *)

(** [datetime.datetime] values; the ones built here come from a date-only
    format, so the time of day is midnight. *)
Record datetime := mk_datetime { dt_year : Z; dt_month : Z; dt_day : Z }.

(** The values the handler meets: what [json.loads] produces, plus the
    [datetime] objects placed in filters. *)
Inductive pyval :=
| VNone
| VBool (b : bool)
| VInt (z : Z)
| VFloat (m e : Z)            (* the float [m * 2^e] *)
| VStr (s : pystr)
| VList (l : list pyval)
| VDict (d : gmap pystr pyval)
| VDatetime (t : datetime).

Abbreviation dict := (gmap pystr pyval).

(** Truth value of an object, as tested by [if x:] and [not x]. *)
Definition truthy (v : pyval) : bool :=
  match v with
  | VNone => false
  | VBool b => b
  | VInt z => negb (z =? 0)%Z
  | VFloat m _ => negb (m =? 0)%Z
  | VStr s => match s with [] => false | _ => true end
  | VList l => match l with [] => false | _ => true end
  | VDict d => negb (bool_decide (d = ∅))
  | VDatetime _ => true
  end.

(** [d.get(key)]: a missing key reads as [None]. *)
Definition dict_get (d : dict) (key : pystr) : pyval := default VNone (d !! key).

(** ** Exceptions *)

Inductive exn := ValueError | AttributeError | TypeError.

Inductive result (A : Type) :=
| Ok (a : A)
| Raise (e : exn).
Arguments Ok {A} a.
Arguments Raise {A} e.

#[global] Instance result_ret : MRet result := fun _ a => Ok a.
#[global] Instance result_bind : MBind result := fun _ _ k r =>
  match r with
  | Ok a => k a
  | Raise e => Raise e
  end.

(** ** Built-ins taken as parameters

    Three library functions are used by the code through their full Unicode
    or calendar behaviour; the embedding is parametric in them. *)
Class PyBuiltins := {
  (** [s.lower()] *)
  lower : pystr -> pystr;
  (** [datetime.strptime(s, "%Y-%m-%d")] on a [str]; [None] stands for the
      [ValueError] it raises when [s] does not parse *)
  strptime_ymd : pystr -> option datetime;
  (** [str(v)] *)
  py_str : pyval -> pystr
}.

(** *** An instance for evaluating examples *)

Module AsciiBuiltins.
Local Open Scope Z_scope.

Definition digit (c : N) : option Z :=
  if ((48 <=? c) && (c <=? 57))%N then Some (Z.of_N (c - 48)) else None.

Definition is_leap (y : Z) : bool :=
  ((y mod 4 =? 0) && negb (y mod 100 =? 0)) || (y mod 400 =? 0).

Definition days_in_month (y m : Z) : Z :=
  if m =? 2 then (if is_leap y then 29 else 28)
  else if (m =? 4) || (m =? 6) || (m =? 9) || (m =? 11) then 30
  else 31.

(** The date constructor's range check. *)
Definition make_date (y m d : Z) : option datetime :=
  if (1 <=? y) && (y <=? 9999) && (1 <=? m) && (m <=? 12)
     && (1 <=? d) && (d <=? days_in_month y m)
  then Some (mk_datetime y m d) else None.

(** [%d]: [3[0-1]|[1-2]\d|0[1-9]|[1-9]| [1-9]], then end of input. *)
Definition parse_day (s : pystr) : option Z :=
  match s with
  | [c1; c2] =>
      match digit c1, digit c2 with
      | Some d1, Some d2 =>
          if (d1 =? 3) && (d2 <=? 1) then Some (30 + d2)
          else if (1 <=? d1) && (d1 <=? 2) then Some (10 * d1 + d2)
          else if (d1 =? 0) && (1 <=? d2) then Some d2
          else None
      | None, Some d2 => if (c1 =? 32)%N && (1 <=? d2) then Some d2 else None
      | _, _ => None
      end
  | [c1] =>
      match digit c1 with
      | Some d1 => if 1 <=? d1 then Some d1 else None
      | None => None
      end
  | _ => None
  end.

(** [%m]: [1[0-2]|0[1-9]|[1-9]], followed by the literal [-]. *)
Definition parse_month (s : pystr) : option (Z * pystr) :=
  match s with
  | c1 :: 45%N :: rest =>
      match digit c1 with
      | Some d1 => if 1 <=? d1 then Some (d1, rest) else None
      | None => None
      end
  | c1 :: c2 :: 45%N :: rest =>
      match digit c1, digit c2 with
      | Some d1, Some d2 =>
          if (d1 =? 1) && (d2 <=? 2) then Some (10 + d2, rest)
          else if (d1 =? 0) && (1 <=? d2) then Some (d2, rest)
          else None
      | _, _ => None
      end
  | _ => None
  end.

(** [datetime.strptime(s, "%Y-%m-%d")] for input whose digits are the ASCII
    digits. *)
Definition strptime_ymd_ascii (s : pystr) : option datetime :=
  match s with
  | y1 :: y2 :: y3 :: y4 :: 45%N :: rest =>
      match digit y1, digit y2, digit y3, digit y4 with
      | Some a, Some b, Some c, Some d =>
          match parse_month rest with
          | Some (m, rest') =>
              match parse_day rest' with
              | Some dd => make_date (1000 * a + 100 * b + 10 * c + d) m dd
              | None => None
              end
          | None => None
          end
      | _, _, _, _ => None
      end
  | _ => None
  end.

Fixpoint uint_codes (d : Decimal.uint) : pystr :=
  match d with
  | Decimal.Nil => []
  | Decimal.D0 r => 48%N :: uint_codes r
  | Decimal.D1 r => 49%N :: uint_codes r
  | Decimal.D2 r => 50%N :: uint_codes r
  | Decimal.D3 r => 51%N :: uint_codes r
  | Decimal.D4 r => 52%N :: uint_codes r
  | Decimal.D5 r => 53%N :: uint_codes r
  | Decimal.D6 r => 54%N :: uint_codes r
  | Decimal.D7 r => 55%N :: uint_codes r
  | Decimal.D8 r => 56%N :: uint_codes r
  | Decimal.D9 r => 57%N :: uint_codes r
  end.

(** [str(v)] for [None], booleans, integers and strings; the other kinds
    of value do not occur in the examples. *)
Definition scalar_str (v : pyval) : pystr :=
  match v with
  | VNone => u "None"
  | VBool true => u "True"
  | VBool false => u "False"
  | VInt z =>
      match Z.to_int z with
      | Decimal.Pos d => uint_codes d
      | Decimal.Neg d => 45%N :: uint_codes d
      end
  | VStr s => s
  | _ => []
  end.

Definition builtins : PyBuiltins :=
  {| lower := ascii_lower;
     strptime_ymd := strptime_ymd_ascii;
     py_str := scalar_str |}.

End AsciiBuiltins.

(** ** [engines/data_handler.py]: class [DynamicDataHandler] *)

Inductive data_format := query_object | record_array.

Section DataHandler.
Context `{PyBuiltins}.

Definition query_fields : list pystr :=
  [u "crime_type"; u "location"; u "date_start"; u "date_end"; u "status";
   u "reported_by"].

(** [field in data] *)
Definition has_key (data : dict) (field : pystr) : bool :=
  bool_decide (is_Some (data !! field)).

Definition detect_data_format (data : pyval) : result data_format :=
  match data with
  | VDict d =>
      if existsb (has_key d) query_fields
      then Ok query_object
      else Ok record_array
  | VList _ => Ok record_array
  | _ => Raise ValueError
  end.

(** The test [value is not None and value != "" and value != []]. *)
Definition is_filled (value : pyval) : bool :=
  match value with
  | VNone => false
  | VStr [] => false
  | VList [] => false
  | _ => true
  end.

(** One iteration of the loop of [normalize_query_object]. *)
Definition normalize_step (key : pystr) (value : pyval) (normalized : dict)
  : dict :=
  if is_filled value then
    match value with
    | VStr s => <[key := VStr (strip s)]> normalized
    | _ => <[key := value]> normalized
    end
  else normalized.

(** [map_fold] runs the step over the items of the dict, as the [for] loop
    over [query_obj.items()] does, starting from [normalized = {}]. *)
Definition normalize_query_object (query_obj : dict) : dict :=
  map_fold normalize_step ∅ query_obj.

(** One iteration of the inner loop of [handle_null_empty_fields]. *)
Definition clean_step (field : pystr) (value : pyval) (cleaned_record : dict)
  : dict :=
  match value with
  | VNone => <[field := VStr (u "N/A")]> cleaned_record
  | VStr s =>
      if bool_decide (strip s = [])
      then <[field := VStr (u "N/A")]> cleaned_record
      else <[field := value]> cleaned_record
  | VList [] => <[field := VStr (u "N/A")]> cleaned_record
  | _ => <[field := value]> cleaned_record
  end.

Fixpoint handle_null_empty_fields_loop (records cleaned_records : list dict)
  : list dict :=
  match records with
  | [] => cleaned_records
  | record :: rest =>
      let cleaned_record := map_fold clean_step ∅ record in
      handle_null_empty_fields_loop rest (cleaned_records ++ [cleaned_record])
  end.

Definition handle_null_empty_fields (records : list dict) : list dict :=
  handle_null_empty_fields_loop records [].

(** [v.lower()]: only [str] objects have the method. *)
Definition str_lower (v : pyval) : result pystr :=
  match v with
  | VStr s => Ok (lower s)
  | _ => Raise AttributeError
  end.

(** [{"$regex": pattern, "$options": "i"}] *)
Definition regex_i (pattern : pyval) : pyval :=
  VDict {[ u "$regex" := pattern; u "$options" := VStr (u "i") ]}.

(** [{field: {"$regex": pattern, "$options": "i"}}] *)
Definition field_regex (field : pystr) (pattern : pystr) : pyval :=
  VDict {[ field := regex_i (VStr pattern) ]}.

(** [lst.extend(items)] *)
Definition list_extend (lst : pyval) (items : list pyval) : result pyval :=
  match lst with
  | VList l => Ok (VList (l ++ items))
  | _ => Raise AttributeError
  end.

(** [datetime.strptime(v, "%Y-%m-%d")] inside [try: ... except ValueError:];
    a [ValueError] is handled and gives [None] here, the [TypeError] for an
    argument that is not a [str] is not. *)
Definition try_strptime (v : pyval) : result (option datetime) :=
  match v with
  | VStr s => Ok (strptime_ymd s)
  | _ => Raise TypeError
  end.

(** The "Handle date range" block, the same text in [build_search_filters]
    and in [build_mongo_query]; the value is [date_filter]. *)
Definition build_date_filter (query_obj : dict) : result dict :=
  let date_filter : dict := ∅ in
  date_filter ←
    (if truthy (dict_get query_obj (u "date_start")) then
       parsed ← try_strptime (dict_get query_obj (u "date_start"));
       match parsed with
       | Some start_date =>
           Ok (<[u "$gte" := VDatetime start_date]> date_filter)
       | None => Ok date_filter
       end
     else Ok date_filter);
  if truthy (dict_get query_obj (u "date_end")) then
    parsed ← try_strptime (dict_get query_obj (u "date_end"));
    match parsed with
    | Some end_date => Ok (<[u "$lte" := VDatetime end_date]> date_filter)
    | None => Ok date_filter
    end
  else Ok date_filter.

(** The "Handle status" and "Handle reported_by" blocks, also shared. *)
Definition add_status_filters (query_obj filters : dict) : dict :=
  let filters :=
    if truthy (dict_get query_obj (u "status"))
    then <[u "status" := regex_i (dict_get query_obj (u "status"))]> filters
    else filters in
  if truthy (dict_get query_obj (u "reported_by"))
  then <[u "reported_by" := regex_i (dict_get query_obj (u "reported_by"))]>
         filters
  else filters.

Definition crime_type_conditions (crime_type : pystr) : list pyval :=
  [field_regex (u "crime_type") crime_type;
   field_regex (u "crime_category") crime_type;
   field_regex (u "crime_subcategory") crime_type].

Definition location_conditions (location : pystr) : list pyval :=
  [field_regex (u "location") location;
   field_regex (u "city") location;
   field_regex (u "address") location;
   field_regex (u "state") location;
   field_regex (u "country") location].

Definition build_search_filters (query_obj : dict) : result dict :=
  let filters : dict := ∅ in
  filters ←
    (if truthy (dict_get query_obj (u "crime_type")) then
       crime_type ← str_lower (dict_get query_obj (u "crime_type"));
       or_list ← list_extend (default (VList []) (filters !! u "$or"))
                             (crime_type_conditions crime_type);
       Ok (<[u "$or" := or_list]> filters)
     else Ok filters);
  filters ←
    (if truthy (dict_get query_obj (u "location")) then
       location ← str_lower (dict_get query_obj (u "location"));
       let location_filters := location_conditions location in
       if has_key filters (u "$or") then
         Ok {[ u "$and" :=
                 VList [VDict {[ u "$or" := dict_get filters (u "$or") ]};
                        VDict {[ u "$or" := VList location_filters ]}] ]}
       else Ok (<[u "$or" := VList location_filters]> filters)
     else Ok filters);
  date_filter ← build_date_filter query_obj;
  let filters :=
    if truthy (VDict date_filter)
    then <[u "date" := VDict date_filter]> filters
    else filters in
  Ok (add_status_filters query_obj filters).

(** *** [search_record_array] *)

(** The loop [for word in search_words], with its [break]. *)
Fixpoint search_words_loop (search_words : list pystr) (value_str : pystr)
    (match_found : bool) : bool :=
  match search_words with
  | [] => match_found
  | word :: rest =>
      if contains word value_str then true
      else search_words_loop rest value_str match_found
  end.

(** The loop [for field, value in record.items()], with its [continue] and
    its [break]. *)
Fixpoint search_fields_loop (items : list (pystr * pyval))
    (search_words : list pystr) (match_found : bool) : bool :=
  match items with
  | [] => match_found
  | (field, value) :: rest =>
      match value with
      | VNone => search_fields_loop rest search_words match_found
      | _ =>
          let value_str := lower (py_str value) in
          let match_found :=
            search_words_loop search_words value_str match_found in
          if match_found then true
          else search_fields_loop rest search_words match_found
      end
  end.

(** The loop [for record in records]. *)
Fixpoint search_records_loop (records : list dict) (search_words : list pystr)
    (matching_records : list dict) : list dict :=
  match records with
  | [] => matching_records
  | record :: rest =>
      let match_found :=
        search_fields_loop (map_to_list record) search_words false in
      search_records_loop rest search_words
        (if match_found then matching_records ++ [record]
         else matching_records)
  end.

(** [search_terms] is a [str] or [None]. *)
Definition search_record_array (records : list dict)
    (search_terms : option pystr) : list dict :=
  match search_terms with
  | None | Some [] => records
  | Some search_terms =>
      let search_terms_lower := lower search_terms in
      let search_words := str_split search_terms_lower in
      search_records_loop records search_words []
  end.

(** *** [process_dynamic_data] *)

(** The elements of a list as record dicts; [record.items()] raises on an
    element that is not a dict. *)
Fixpoint as_records (l : list pyval) : result (list dict) :=
  match l with
  | [] => Ok []
  | VDict d :: rest => records ← as_records rest; Ok (d :: records)
  | _ :: _ => Raise AttributeError
  end.

(** The body of the [try] block. *)
Definition process_dynamic_data_body (data : pyval)
    (search_query : option pystr) : result (list pyval) :=
  data_format ← detect_data_format data;
  match data_format with
  | query_object =>
      match data with
      | VDict d =>
          let normalized_query := normalize_query_object d in
          filters ← build_search_filters normalized_query;
          Ok [VDict {[ u "query_filters" := VDict filters;
                       u "format" := VStr (u "query_object") ]}]
      | _ => Raise ValueError
      end
  | record_array =>
      let records := match data with VList l => l | _ => [data] end in
      records ← as_records records;
      let cleaned_records := handle_null_empty_fields records in
      let filtered_records :=
        match search_query with
        | None | Some [] => cleaned_records
        | Some _ => search_record_array cleaned_records search_query
        end in
      Ok (VDict <$> filtered_records)
  end.

(** [except Exception as e: log_error(...); return []] *)
Definition process_dynamic_data (data : pyval) (search_query : option pystr)
  : list pyval :=
  match process_dynamic_data_body data search_query with
  | Ok results => results
  | Raise _ => []
  end.

End DataHandler.

(** ** The object store

    Dict objects live in a store and are passed by reference. *)
Abbreviation loc := nat.
Abbreviation store := (gmap nat (gmap pystr pyval)).

(** ** [Crime_Query/engines/query_builder.py] *)

Section QueryBuilder.
Context `{PyBuiltins}.

Definition build_mongo_query (parsed_query : dict) : result dict :=
  let mongo_query : dict := ∅ in
  mongo_query ←
    (if truthy (dict_get parsed_query (u "crime_category")) then
       crime_category ← str_lower (dict_get parsed_query (u "crime_category"));
       Ok (<[u "crime_category" := regex_i (VStr crime_category)]> mongo_query)
     else Ok mongo_query);
  mongo_query ←
    (if truthy (dict_get parsed_query (u "location")) then
       location ← str_lower (dict_get parsed_query (u "location"));
       Ok (<[u "$or" := VList [field_regex (u "city") location;
                               field_regex (u "location") location;
                               field_regex (u "address") location]]>
             mongo_query)
     else Ok mongo_query);
  date_filter ← build_date_filter parsed_query;
  let mongo_query :=
    if truthy (VDict date_filter)
    then <[u "date" := VDict date_filter]> mongo_query
    else mongo_query in
  Ok (add_status_filters parsed_query mongo_query).

(** The entries of the [crime_synonyms] dict display, in source order. *)
Definition crime_synonyms_display : list (pystr * pystr) :=
  [
   (* English *)
   (u "theft", u "theft");
   (u "stealing", u "theft");
   (u "burglary", u "burglary");
   (u "robbery", u "robbery");
   (u "assault", u "assault");
   (u "murder", u "murder");
   (u "fraud", u "fraud");
   (* Hindi *)
   (u "चोरी", u "theft");
   (u "चोरी करना", u "theft");
   (u "चोर", u "theft");
   (u "डकैती", u "robbery");
   (u "डकैत", u "robbery");
   (u "हिंसा", u "assault");
   (u "हत्या", u "murder");
   (u "धोखा", u "fraud");
   (u "ठगी", u "fraud");
   (u "घर में चोरी", u "burglary");
   (* Bengali *)
   (u "চুরি", u "theft");
   (u "চোর", u "theft");
   (u "ডাকাতি", u "robbery");
   (u "হামলা", u "assault");
   (u "হত্যা", u "murder");
   (u "প্রতারণা", u "fraud");
   (u "ভাঙচুর", u "vandalism");
   (u "ঘর চুরি", u "burglary");
   (* Tamil *)
   (u "திருட்டு", u "theft");
   (u "மோசடி", u "fraud");
   (u "கொள்ளை", u "robbery");
   (u "தாக்குதல்", u "assault");
   (u "கொலை", u "murder");
   (u "மனைவி திருட்டு", u "burglary");
   (* Telugu *)
   (u "దొంగతనం", u "theft");
   (u "ఊరిపోక", u "robbery");
   (u "మోసం", u "fraud");
   (u "దాడి", u "assault");
   (u "హత్య", u "murder");
   (u "చోరీ", u "burglary");
   (* Marathi *)
   (u "चोरी", u "theft");
   (u "चोर", u "theft");
   (u "छापा मारणे", u "robbery");
   (u "हल्ला", u "assault");
   (u "खून", u "murder");
   (u "फसवणूक", u "fraud");
   (u "घरफोडी", u "burglary");
   (* Kannada *)
   (u "ಮೋಸ", u "fraud");
   (u "ಕಳ್ಳತನ", u "theft");
   (u "ದಾಳೆ", u "robbery");
   (u "ಹಲ್ಲೆ", u "assault");
   (u "ಕೊಲೆ", u "murder");
   (u "ತೋಟದ ಕಳ್ಳತನ", u "burglary");
   (* Punjabi *)
   (u "ਚੋਰੀ", u "theft");
   (u "ਡਾਕੇਬਾਜ਼ੀ", u "robbery");
   (u "ਹਮਲਾ", u "assault");
   (u "ਕਤਲ", u "murder");
   (u "ਠੱਗੀ", u "fraud");
   (u "ਘਰ ਦੀ ਚੋਰੀ", u "burglary")
  ].

(** Evaluation of a dict display: a key that occurs again keeps its first
    position and takes the later value. *)
Fixpoint dict_store (items : list (pystr * pystr)) (key value : pystr)
  : list (pystr * pystr) :=
  match items with
  | [] => [(key, value)]
  | (k, v) :: rest =>
      if bool_decide (k = key) then (k, value) :: rest
      else (k, v) :: dict_store rest key value
  end.

Definition dict_display (entries : list (pystr * pystr))
  : list (pystr * pystr) :=
  foldl (fun items '(key, value) => dict_store items key value) [] entries.

(** [crime_synonyms.items()] *)
Definition crime_synonyms : list (pystr * pystr) :=
  dict_display crime_synonyms_display.

(** The loop [for synonym, standard in crime_synonyms.items()]: the value
    assigned to the field before the [break], if the [break] is reached. *)
Fixpoint synonyms_loop (items : list (pystr * pystr)) (crime_category : pystr)
  : option pystr :=
  match items with
  | [] => None
  | (synonym, standard) :: rest =>
      if contains synonym crime_category then Some standard
      else synonyms_loop rest crime_category
  end.

(** [query_dict] is a reference into the store of dict objects; the call
    returns a reference and the store it leaves behind.  A reference always
    designates an object, the [None] case of the lookup does not arise. *)
Definition translate_synonyms (query_dict : loc) (σ : store)
  : result (loc * store) :=
  match σ !! query_dict with
  | None => Raise TypeError
  | Some d =>
      if truthy (dict_get d (u "crime_category")) then
        crime_category ← str_lower (dict_get d (u "crime_category"));
        match synonyms_loop crime_synonyms crime_category with
        | Some standard =>
            Ok (query_dict,
                <[query_dict := <[u "crime_category" := VStr standard]> d]> σ)
        | None => Ok (query_dict, σ)
        end
      else Ok (query_dict, σ)
  end.

End QueryBuilder.

(** ** [engines/data_handler.py]: the remaining functions *)

Section DataHandlerRest.
Context `{PyBuiltins}.

(** The loop [for record in records] of [partial_match_text_fields]. *)
Fixpoint partial_match_loop (records : list dict) (field_name : pystr)
    (search_value_lower : pystr) (matching_records : list dict) : list dict :=
  match records with
  | [] => matching_records
  | record :: rest =>
      let field_value := dict_get record field_name in
      partial_match_loop rest field_name search_value_lower
        (match field_value with
         | VStr s =>
             if truthy field_value then
               if contains search_value_lower (lower s)
               then matching_records ++ [record]
               else matching_records
             else matching_records
         | _ => matching_records
         end)
  end.

(** [search_value] is a [str] or [None]. *)
Definition partial_match_text_fields (records : list dict) (field_name : pystr)
    (search_value : option pystr) : list dict :=
  match search_value with
  | None | Some [] => records
  | Some search_value =>
      let search_value_lower := lower search_value in
      partial_match_loop records field_name search_value_lower []
  end.

Definition is_sparse_query_format (data : pyval) : bool :=
  match data with
  | VDict d => existsb (has_key d) query_fields
  | _ => false
  end.

(** A fresh handler carries no state of its own. *)
Definition extract_non_null_filters (query_obj : dict) : dict :=
  normalize_query_object query_obj.

(** [json.loads], with [None] for the [JSONDecodeError] it raises. *)
Variable json_loads : pystr → option pyval.

Definition process_variable_json (json_data : pyval)
    (search_query : option pystr) : list pyval :=
  match json_data with
  | VStr s =>
      match json_loads s with
      | Some data => process_dynamic_data data search_query
      | None => []
      end
  | _ => process_dynamic_data json_data search_query
  end.

End DataHandlerRest.

(** ** [data/ingest_to_mongo.py]: [query_with_dynamic_handler] *)

Section DynamicQuery.
Context `{PyBuiltins}.

(** [query_crime_data]: the records the collection returns for a filter
    (the empty list when the collection cannot be reached). *)
Variable query_crime_data : dict → list dict.

(** The body of the [try] block.  [detect_data_format] answers
    ["query_object"] for a dict only. *)
Definition query_with_dynamic_handler_body (query_data : pyval)
    (search_terms : option pystr) : result (list dict) :=
  data_format ← detect_data_format query_data;
  match data_format with
  | query_object =>
      match query_data with
      | VDict d =>
          let normalized_query := normalize_query_object d in
          mongo_query ← build_mongo_query normalized_query;
          Ok (query_crime_data mongo_query)
      | _ => Raise AttributeError
      end
  | record_array =>
      let all_records := query_crime_data ∅ in
      let filtered_records :=
        match search_terms with
        | None | Some [] => all_records
        | Some _ => search_record_array all_records search_terms
        end in
      Ok (handle_null_empty_fields filtered_records)
  end.

(** [except Exception as e: log_error(...); return []] *)
Definition query_with_dynamic_handler (query_data : pyval)
    (search_terms : option pystr) : list dict :=
  match query_with_dynamic_handler_body query_data search_terms with
  | Ok results => results
  | Raise _ => []
  end.

End DynamicQuery.

(** ** [main.py]: the page of results that is displayed *)

Local Open Scope Z_scope.

(** [l[i:j]]: a negative index counts from the end, and both indices are
    clipped to the list. *)
Definition slice_index (n i : Z) : Z :=
  if i <? 0 then Z.max (i + n) 0 else Z.min i n.

Definition py_slice {A} (l : list A) (i j : Z) : list A :=
  let n := Z.of_nat (length l) in
  let i := slice_index n i in
  let j := slice_index n j in
  take (Z.to_nat (j - i)) (drop (Z.to_nat i) l).

Definition start_idx (page_number results_per_page : Z) : Z :=
  (page_number - 1) * results_per_page.

Definition end_idx (page_number results_per_page total_results : Z) : Z :=
  Z.min (start_idx page_number results_per_page + results_per_page)
        total_results.

Definition paginated_results {A} (results : list A)
    (page_number results_per_page : Z) : list A :=
  let total_results := Z.of_nat (length results) in
  py_slice results (start_idx page_number results_per_page)
           (end_idx page_number results_per_page total_results).

Local Close Scope Z_scope.

(** * Vocabulary of the properties

    The predicates and functions in which the properties below are stated:
    what a structured query is, what a field contributes to a filter, when a
    record matches a list of words. *)

Section Vocabulary.
Context `{PyBuiltins}.

(** [sub] occurs in [s] as a contiguous run of characters. *)
Definition is_substring (sub s : pystr) : Prop :=
  ∃ before after, s = before ++ sub ++ after.

(** What the loop of [normalize_query_object] does with one value: [None]
    when the field is dropped. *)
Definition normalize_value (value : pyval) : option pyval :=
  if is_filled value then
    Some (match value with VStr s => VStr (strip s) | _ => value end)
  else None.

(** A query none of whose string values is whitespace-only. *)
Definition no_whitespace_only (query_obj : dict) : Prop :=
  ∀ key s, query_obj !! key = Some (VStr s) → s ≠ [] → strip s ≠ [].

(** What [handle_null_empty_fields] stores for one value. *)
Definition clean_value (value : pyval) : pyval :=
  match value with
  | VNone => VStr (u "N/A")
  | VStr s => if bool_decide (strip s = []) then VStr (u "N/A") else value
  | VList [] => VStr (u "N/A")
  | _ => value
  end.

(** What [handle_null_empty_fields] builds for one record. *)
Definition clean_record (record : dict) : dict := clean_value <$> record.

(** The values the canonicalizer replaces: null, a string that is empty once
    trimmed, an empty list. *)
Definition null_or_blank (value : pyval) : Prop :=
  value = VNone ∨ (∃ s, value = VStr s ∧ strip s = []) ∨ value = VList [].

(** A structured query: every field holds a string or the absent marker. *)
Definition StructuredQuery (query_obj : dict) : Prop :=
  ∀ key value, query_obj !! key = Some value →
    value = VNone ∨ ∃ s, value = VStr s.

(** The non-empty string stored under [key], if there is one. *)
Definition str_field (query_obj : dict) (key : pystr) : option pystr :=
  match query_obj !! key with
  | Some (VStr (c :: s)) => Some (c :: s)
  | _ => None
  end.

(** The bound a date field contributes: the parsed date when the field holds
    a non-empty string that parses, and none otherwise. *)
Definition date_bound (query_obj : dict) (key : pystr) : option datetime :=
  str_field query_obj key ≫= strptime_ymd.

(** The bounds of one date-range filter. *)
Definition date_range (lower_bound upper_bound : option datetime) : dict :=
  match lower_bound, upper_bound with
  | Some a, Some b => {[ u "$gte" := VDatetime a; u "$lte" := VDatetime b ]}
  | Some a, None => {[ u "$gte" := VDatetime a ]}
  | None, Some b => {[ u "$lte" := VDatetime b ]}
  | None, None => ∅
  end.

(** The category/location part of a [build_search_filters] filter. *)
Definition text_filters (crime_type location : option pystr) : dict :=
  match crime_type, location with
  | Some c, Some l =>
      {[ u "$and" :=
           VList [VDict {[ u "$or" := VList (crime_type_conditions (lower c)) ]};
                  VDict {[ u "$or" := VList (location_conditions (lower l)) ]}] ]}
  | Some c, None => {[ u "$or" := VList (crime_type_conditions (lower c)) ]}
  | None, Some l => {[ u "$or" := VList (location_conditions (lower l)) ]}
  | None, None => ∅
  end.

(** A filter with its date-range entry added, when there is a bound. *)
Definition with_date (date_filter filters : dict) : dict :=
  if truthy (VDict date_filter) then <[u "date" := VDict date_filter]> filters
  else filters.

(** The date-range node for a pair of optional bounds: none when both bounds
    are absent, otherwise one node holding the bounds that are present. *)
Definition date_range_node (lower_bound upper_bound : option datetime)
  : option pyval :=
  match lower_bound, upper_bound with
  | None, None => None
  | _, _ => Some (VDict (date_range lower_bound upper_bound))
  end.

(** The category/location part of a [build_mongo_query] filter. *)
Definition mongo_text_filters (crime_category location : option pystr) : dict :=
  let mongo_query : dict :=
    match crime_category with
    | Some c => {[ u "crime_category" := regex_i (VStr (lower c)) ]}
    | None => ∅
    end in
  match location with
  | Some l =>
      <[u "$or" := VList [field_regex (u "city") (lower l);
                          field_regex (u "location") (lower l);
                          field_regex (u "address") (lower l)]]> mongo_query
  | None => mongo_query
  end.

(** A record matches a list of search words when one of the words occurs in
    the lower-cased string form of one of its field values other than
    [None]. *)
Definition record_matches (search_words : list pystr) (record : dict) : Prop :=
  ∃ word field value,
    word ∈ search_words ∧ record !! field = Some value ∧ value ≠ VNone
    ∧ is_substring word (lower (py_str value)).

(** Whether one field value lets the record through. *)
Definition value_matches (search_words : list pystr) (value : pyval) : bool :=
  match value with
  | VNone => false
  | _ => existsb (λ word, contains word (lower (py_str value))) search_words
  end.

End Vocabulary.

(** The data of the repository's tests ([test_core_features.py]). *)
Module TestData.

Definition sparse_query : dict :=
  {[ u "crime_type" := VNone; u "location" := VStr (u "Maharashtra");
     u "date_start" := VNone; u "date_end" := VNone; u "status" := VNone;
     u "reported_by" := VNone ]}.

Definition burglary_record : dict :=
  {[ u "id" := VInt 1; u "date" := VStr (u "2023-02-10");
     u "location" := VStr (u "Borivali, Mumbai, Maharashtra");
     u "crime_category" := VStr (u "Burglary");
     u "status" := VStr (u "Under Investigation") ]}.

Definition theft_record : dict :=
  {[ u "id" := VInt 2; u "date" := VStr (u "2023-02-22");
     u "location" := VStr (u "Thane, Mumbai, Maharashtra");
     u "crime_category" := VStr (u "Theft");
     u "status" := VStr (u "Under Investigation") ]}.

Definition sample_records : list dict := [burglary_record; theft_record].

End TestData.

(** Vocabulary of the further properties. *)

Section VocabularyRest.
Context `{PyBuiltins}.

(** The entries of a filter, given those of its category/location part
    [text]: what the blocks for the dates, the status and the reporter add. *)
Definition filter_entries (query_obj text filters : dict) : Prop :=
  (∀ key, key ≠ u "date" → key ≠ u "status" → key ≠ u "reported_by" →
     filters !! key = text !! key)
  ∧ filters !! u "date"
      = date_range_node (date_bound query_obj (u "date_start"))
                        (date_bound query_obj (u "date_end"))
  ∧ filters !! u "status"
      = (λ s, regex_i (VStr s)) <$> str_field query_obj (u "status")
  ∧ filters !! u "reported_by"
      = (λ s, regex_i (VStr s)) <$> str_field query_obj (u "reported_by").

(** The test the search applies to one record, for given search terms. *)
Definition search_keeps (search_terms : pystr) (record : dict) : bool :=
  search_fields_loop (map_to_list record) (str_split (lower search_terms))
    false.

(** A record matches on a field when the field holds a non-empty string in
    whose lower-cased form the lower-cased search value occurs. *)
Definition field_matches (field_name search_value : pystr) (record : dict)
  : Prop :=
  ∃ s, record !! field_name = Some (VStr s) ∧ s ≠ []
       ∧ is_substring (lower search_value) (lower s).

(** The standard terms of the synonym table. *)
Definition canonical_categories : list pystr :=
  [u "theft"; u "burglary"; u "robbery"; u "assault"; u "murder"; u "fraud";
   u "vandalism"].

End VocabularyRest.

(** More sample inputs. *)

Module Samples.

(** The query of [test_end_to_end_query_processing]. *)
Definition end_to_end_query : dict :=
  {[ u "crime_type" := VStr (u "theft"); u "location" := VStr (u "Mumbai");
     u "date_start" := VNone; u "date_end" := VNone;
     u "status" := VStr (u "open"); u "reported_by" := VNone ]}.

(** The [full_query] of [test_dynamic_queries]. *)
Definition full_query : dict :=
  {[ u "crime_category" := VStr (u "theft"); u "location" := VStr (u "Mumbai");
     u "status" := VStr (u "open") ]}.

(** A decoder that knows one text. *)
Definition loads_42 (s : pystr) : option pyval :=
  if bool_decide (s = u "42") then Some (VInt 42) else None.

End Samples.


(** * Properties *)

(** Two different string literals are different keys. *)
Ltac key_ne := vm_compute; discriminate.

(** ** Strings *)

Lemma startswith_spec (prefix s : pystr) :
  startswith prefix s = true ↔ ∃ after, s = prefix ++ after.
Proof.
  revert s. induction prefix as [|p prefix IH]; intros s; simpl.
  - split; [intros _; by exists s | done].
  - destruct s as [|c s].
    + split; [done | intros [after Heq]; discriminate].
    + rewrite andb_true_iff, N.eqb_eq, IH. split.
      * intros [-> [after ->]]. by exists after.
      * intros [after Heq]. injection Heq as -> ->. eauto.
Qed.

Lemma contains_spec (sub s : pystr) :
  contains sub s = true ↔ is_substring sub s.
Proof.
  unfold is_substring. induction s as [|c s IH].
  - simpl. rewrite orb_false_r, startswith_spec. split.
    + intros [after Heq]. by exists [], after.
    + intros ([|] & after & Heq); [eauto | discriminate].
  - cbn [contains]. rewrite orb_true_iff, startswith_spec, IH. split.
    + intros [[after ->] | (before & after & ->)].
      * by exists [], after.
      * by exists (c :: before), after.
    + intros ([|c' before] & after & Heq).
      * left. by exists after.
      * right. injection Heq as -> ->. eauto.
Qed.

Lemma contains_false (sub s : pystr) :
  contains sub s = false ↔ ¬ is_substring sub s.
Proof. rewrite <- contains_spec. by destruct (contains sub s). Qed.

Lemma lstrip_app_not_space (s : pystr) (c : N) :
  isspace c = false → lstrip (s ++ [c]) = lstrip s ++ [c].
Proof.
  intros Hc. induction s as [|a s IH]; simpl.
  - by rewrite Hc.
  - by destruct (isspace a).
Qed.

Lemma rstrip_cons_not_space (c : N) (s : pystr) :
  isspace c = false → rstrip (c :: s) = c :: rstrip s.
Proof.
  intros Hc. unfold rstrip. simpl.
  by rewrite lstrip_app_not_space, rev_app_distr.
Qed.

(** What [lstrip] returns is empty or starts with a character that is not
    whitespace. *)
Lemma lstrip_head (s : pystr) :
  lstrip s = [] ∨ ∃ c t, lstrip s = c :: t ∧ isspace c = false.
Proof.
  induction s as [|a s IH]; simpl; [by left|].
  destruct (isspace a) eqn:Ha; [done | right; eauto].
Qed.

Lemma lstrip_id (c : N) (s : pystr) :
  isspace c = false → lstrip (c :: s) = c :: s.
Proof. intros Hc. simpl. by rewrite Hc. Qed.

Lemma rstrip_rstrip (s : pystr) : rstrip (rstrip s) = rstrip s.
Proof.
  unfold rstrip. rewrite rev_involutive. f_equal.
  destruct (lstrip_head (rev s)) as [-> | (c & t & -> & Hc)]; [done|].
  by apply lstrip_id.
Qed.

Lemma strip_head (s : pystr) :
  strip s = [] ∨ ∃ c t, strip s = c :: t ∧ isspace c = false.
Proof.
  unfold strip. destruct (lstrip_head s) as [-> | (c & t & -> & Hc)].
  - by left.
  - right. rewrite rstrip_cons_not_space by done. eauto.
Qed.

(** Trimming a trimmed string changes nothing. *)
Lemma strip_strip (s : pystr) : strip (strip s) = strip s.
Proof.
  destruct (strip_head s) as [Hs | (c & t & Hs & Hc)].
  - by rewrite Hs.
  - unfold strip at 1. rewrite Hs, lstrip_id by done.
    rewrite <- Hs. unfold strip. apply rstrip_rstrip.
Qed.

(** The words [s.split()] returns are non-empty and free of whitespace. *)
Lemma split_from_words (word s : pystr) :
  Forall (λ c, isspace c = false) word →
  Forall (λ w, w ≠ [] ∧ Forall (λ c, isspace c = false) w) (split_from word s).
Proof.
  assert (∀ w : pystr, w ≠ [] → rev w ≠ []) as Hrev.
  { intros [|c w] Hw; [done|]. simpl. by destruct (rev w). }
  revert word. induction s as [|c s IH]; intros word Hword; simpl.
  - destruct word as [|c' word]; [constructor|].
    constructor; [|constructor]. split; [by apply Hrev | by apply List.Forall_rev].
  - destruct (isspace c) eqn:Hc.
    + destruct word as [|c' word]; [by apply IH|].
      constructor; [|by apply IH].
      split; [by apply Hrev | by apply List.Forall_rev].
    + apply IH. by constructor.
Qed.

Lemma str_split_words (s : pystr) :
  Forall (λ w, w ≠ [] ∧ Forall (λ c, isspace c = false) w) (str_split s).
Proof. by apply split_from_words. Qed.

(** ** The query-object normalizer *)

Lemma normalize_query_object_lookup (query_obj : dict) (key : pystr) :
  normalize_query_object query_obj !! key = query_obj !! key ≫= normalize_value.
Proof.
  unfold normalize_query_object. revert key.
  apply (map_fold_weak_ind
           (λ r m, ∀ key, r !! key = m !! key ≫= normalize_value)).
  - intros key. by rewrite !lookup_empty.
  - intros i x m r Hi IH key.
    unfold normalize_step. destruct (decide (i = key)) as [->|Hne].
    + rewrite lookup_insert_eq. simpl. unfold normalize_value.
      destruct (is_filled x) eqn:Hx.
      * destruct x; by rewrite lookup_insert_eq.
      * by rewrite IH, Hi.
    + rewrite (lookup_insert_ne m) by done. rewrite <- IH.
      destruct (is_filled x); [|done].
      destruct x; by rewrite lookup_insert_ne.
Qed.

Lemma normalize_query_object_omap (query_obj : dict) :
  normalize_query_object query_obj = omap normalize_value query_obj.
Proof.
  apply map_eq. intros key.
  by rewrite normalize_query_object_lookup, lookup_omap.
Qed.

(** A whitespace-only value passes the emptiness test, which runs before the
    trimming, and is stored as the empty string. *)
Lemma normalize_value_whitespace :
  normalize_value (VStr (u "   ")) = Some (VStr []).
Proof. reflexivity. Qed.

(** C7, evaluated on the query [{"location": "   "}]: the first pass keeps the
    field with the empty string as its value, the second pass drops the field,
    so normalizing twice differs from normalizing once. *)
Theorem normalize_query_object_twice_differs :
  normalize_query_object {[ u "location" := VStr (u "   ") ]}
    = {[ u "location" := VStr [] ]}
  ∧ normalize_query_object
      (normalize_query_object {[ u "location" := VStr (u "   ") ]}) = ∅.
Proof.
  rewrite !normalize_query_object_omap.
  rewrite (omap_singleton_Some _ _ _ _ normalize_value_whitespace).
  split; [done|]. by apply omap_singleton_None.
Qed.

(** C8, evaluated on the query [{"location": "   "}]: the output has the field
    [location] present with the empty string as its value. *)
Theorem normalize_query_object_keeps_empty_value :
  normalize_query_object {[ u "location" := VStr (u "   ") ]} !! u "location"
    = Some (VStr []).
Proof.
  rewrite normalize_query_object_lookup, lookup_singleton_eq. reflexivity.
Qed.

Lemma normalize_value_fixed (value value' : pyval) :
  (∀ s, value = VStr s → s ≠ [] → strip s ≠ []) →
  normalize_value value = Some value' →
  normalize_value value' = Some value'.
Proof.
  unfold normalize_value. intros Hws.
  destruct (is_filled value) eqn:Hfilled; [|done].
  intros [= <-]. destruct value as [| | | |s| | |]; try by rewrite Hfilled.
  destruct s as [|c s]; [done|].
  specialize (Hws _ eq_refl ltac:(done)).
  destruct (strip (c :: s)) as [|c' s'] eqn:Hs; [done|].
  simpl. by rewrite <- Hs, strip_strip.
Qed.

(** Away from whitespace-only values the normalizer is idempotent. *)
Lemma normalize_query_object_idempotent_on (query_obj : dict) :
  no_whitespace_only query_obj →
  normalize_query_object (normalize_query_object query_obj)
    = normalize_query_object query_obj.
Proof.
  intros Hws. apply map_eq. intros key.
  rewrite !normalize_query_object_lookup.
  destruct (query_obj !! key) as [value|] eqn:Hkey; [|done]. simpl.
  destruct (normalize_value value) as [value'|] eqn:Hvalue; [|done]. simpl.
  eapply normalize_value_fixed; [|done].
  intros s -> Hs. by eapply Hws.
Qed.

(** Away from whitespace-only values every string of the output is non-empty
    and trimmed, and no [None] or empty list is left. *)
Lemma normalize_query_object_filled_on (query_obj : dict) (key : pystr)
    (value : pyval) :
  no_whitespace_only query_obj →
  normalize_query_object query_obj !! key = Some value →
  is_filled value = true ∧ ∀ s, value = VStr s → strip s = s.
Proof.
  intros Hws. rewrite normalize_query_object_lookup.
  destruct (query_obj !! key) as [v|] eqn:Hkey; [|done]. simpl.
  unfold normalize_value. destruct (is_filled v) eqn:Hv; [|done].
  intros [= <-]. destruct v as [| | | |s| | |]; try (split; [done | by intros]).
  destruct s as [|c s]; [done|].
  specialize (Hws _ _ Hkey ltac:(done)). split.
  - simpl. by destruct (strip (c :: s)).
  - intros s' [= <-]. apply strip_strip.
Qed.

(** ** The null/empty canonicalizer *)

Lemma clean_step_insert (field : pystr) (value : pyval) (cleaned : dict) :
  clean_step field value cleaned = <[field := clean_value value]> cleaned.
Proof.
  unfold clean_step, clean_value.
  destruct value as [| | | |s|[|]| |]; try done. by case_bool_decide.
Qed.

Lemma clean_record_fold (record : dict) :
  map_fold clean_step ∅ record = clean_record record.
Proof.
  unfold clean_record.
  apply (map_fold_weak_ind (λ r m, r = clean_value <$> m)).
  - by rewrite fmap_empty.
  - intros i x m r _ ->. by rewrite clean_step_insert, fmap_insert.
Qed.

Lemma handle_null_empty_fields_loop_app (records cleaned : list dict) :
  handle_null_empty_fields_loop records cleaned
    = cleaned ++ (clean_record <$> records).
Proof.
  revert cleaned. induction records as [|record rest IH]; intros cleaned; simpl.
  - by rewrite app_nil_r.
  - rewrite IH, clean_record_fold, <- app_assoc. done.
Qed.

Lemma handle_null_empty_fields_fmap (records : list dict) :
  handle_null_empty_fields records = clean_record <$> records.
Proof. apply handle_null_empty_fields_loop_app. Qed.

Lemma clean_value_blank (value : pyval) :
  null_or_blank value → clean_value value = VStr (u "N/A").
Proof.
  intros [-> | [(s & -> & Hs) | ->]]; try done.
  unfold clean_value. by rewrite bool_decide_eq_true_2.
Qed.

Lemma clean_value_not_blank (value : pyval) :
  ¬ null_or_blank value → clean_value value = value.
Proof.
  unfold null_or_blank. intros Hnb.
  destruct value as [| | | |s|[|]| |]; try done.
  - exfalso. naive_solver.
  - unfold clean_value. case_bool_decide; [|done]. exfalso. naive_solver.
  - exfalso. naive_solver.
Qed.

(** C4 as stated fails on a whitespace-only value: the record [{"a": "  "}]
    comes out as [{"a": "N/A"}], although ["  "] is not the empty string. *)
Lemma handle_null_empty_fields_replaces_whitespace :
  u "  " ≠ []
  ∧ handle_null_empty_fields [{[ u "a" := VStr (u "  ") ]}]
      = [{[ u "a" := VStr (u "N/A") ]}].
Proof.
  split; [done|].
  rewrite handle_null_empty_fields_fmap. simpl. unfold clean_record.
  rewrite map_fmap_singleton, clean_value_blank; [done|].
  right; left. by exists (u "  ").
Qed.

(** C4, amended: the canonicalizer returns one record per input record, in
    order, with the same fields; a value is replaced by ["N/A"] exactly when
    it is null, a string that is empty after trimming (the empty string and
    every whitespace-only string), or an empty list; every other value,
    [0] and [False] among them, is passed through unchanged. *)
Theorem handle_null_empty_fields_spec (records : list dict) :
  length (handle_null_empty_fields records) = length records
  ∧ (∀ i record, records !! i = Some record →
       ∃ cleaned, handle_null_empty_fields records !! i = Some cleaned ∧
         ∀ field,
           match record !! field with
           | None => cleaned !! field = None
           | Some value =>
               (null_or_blank value →
                  cleaned !! field = Some (VStr (u "N/A")))
               ∧ (¬ null_or_blank value → cleaned !! field = Some value)
           end)
  ∧ ¬ null_or_blank (VInt 0) ∧ ¬ null_or_blank (VBool false).
Proof.
  rewrite handle_null_empty_fields_fmap. split; [by rewrite length_fmap|]. split.
  - intros i record Hi. exists (clean_record record). split.
    + by rewrite list_lookup_fmap, Hi.
    + intros field. unfold clean_record. rewrite lookup_fmap.
      destruct (record !! field) as [value|]; [|done]. simpl. split.
      * intros Hb. by rewrite clean_value_blank.
      * intros Hb. by rewrite clean_value_not_blank.
  - split; intros [? | [(s & ? & _) | ?]]; discriminate.
Qed.

(** ** The format dispatcher *)

Lemma existsb_has_key (d : dict) (fields : list pystr) :
  existsb (has_key d) fields = true ↔
  ∃ field, field ∈ fields ∧ is_Some (d !! field).
Proof.
  rewrite existsb_exists. unfold has_key.
  setoid_rewrite bool_decide_eq_true. by setoid_rewrite <- list_elem_of_In.
Qed.

(** C10 as stated fails for the name [crime_category]: a mapping that has it,
    and none of the names [detect_data_format] looks for, is classified as a
    record array. *)
Lemma detect_data_format_crime_category :
  detect_data_format (VDict {[ u "crime_category" := VStr (u "theft") ]})
    = Ok record_array.
Proof. vm_compute. reflexivity. Qed.

(** C10, amended: the names recognized are [crime_type], [location],
    [date_start], [date_end], [status] and [reported_by], and [crime_category]
    is not one of them.  A mapping with one of the six as a key, whatever the
    value stored under it, is a query object; a mapping with none of them is
    a record array; every list is a record array. *)
Theorem detect_data_format_spec :
  query_fields = [u "crime_type"; u "location"; u "date_start"; u "date_end";
                  u "status"; u "reported_by"]
  ∧ (u "crime_category" ∉ query_fields)
  ∧ (∀ (d : dict) field value,
       field ∈ query_fields → d !! field = Some value →
       detect_data_format (VDict d) = Ok query_object)
  ∧ (∀ d : dict,
       (∀ field, field ∈ query_fields → d !! field = None) →
       detect_data_format (VDict d) = Ok record_array)
  ∧ (∀ l, detect_data_format (VList l) = Ok record_array).
Proof.
  split; [done|]. split.
  { rewrite list_elem_of_In. vm_compute. intuition discriminate. }
  split; [|split; [|done]].
  - intros d field value Hin Hd. unfold detect_data_format.
    rewrite (proj2 (existsb_has_key d query_fields)); [done|].
    exists field. by rewrite Hd.
  - intros d Hnone. unfold detect_data_format.
    destruct (existsb (has_key d) query_fields) eqn:Hex; [|done].
    apply existsb_has_key in Hex as (field & Hin & [value Hd]).
    by rewrite (Hnone field Hin) in Hd.
Qed.

Section Dispatcher.
Context `{PyBuiltins}.

(** C2, amended: for a payload that is neither a mapping nor a sequence,
    [detect_data_format] raises [ValueError] to its caller, while
    [process_dynamic_data] catches that error and returns the empty list as
    an ordinary result. *)
Theorem unsupported_payload (payload : pyval) (search_query : option pystr) :
  (∀ d, payload ≠ VDict d) → (∀ l, payload ≠ VList l) →
  detect_data_format payload = Raise ValueError
  ∧ process_dynamic_data payload search_query = [].
Proof.
  intros Hd Hl. unfold process_dynamic_data, process_dynamic_data_body.
  destruct payload; try done.
  - by destruct (Hl l).
  - by destruct (Hd d).
Qed.

End Dispatcher.

(** C2 as stated fails on the payload [42]: [process_dynamic_data] returns
    normally, with the empty list. *)
Lemma process_dynamic_data_swallows_error :
  process_dynamic_data (H := AsciiBuiltins.builtins) (VInt 42) None = [].
Proof. reflexivity. Qed.

Lemma unsupported_payload_witness :
  detect_data_format (VInt 42) = Raise ValueError
  ∧ process_dynamic_data (H := AsciiBuiltins.builtins) (VInt 42)
      (Some (u "theft")) = [].
Proof.
  apply (unsupported_payload (H := AsciiBuiltins.builtins) (VInt 42)); done.
Defined.

(** ** The filter builder *)

Lemma structured_dict_get (query_obj : dict) (key : pystr) :
  StructuredQuery query_obj →
  match str_field query_obj key with
  | Some s => dict_get query_obj key = VStr s ∧ truthy (VStr s) = true
  | None => truthy (dict_get query_obj key) = false
  end.
Proof.
  intros Hq. unfold str_field, dict_get.
  destruct (query_obj !! key) as [value|] eqn:Hkey; [|done].
  destruct (Hq _ _ Hkey) as [-> | [[|c s] ->]]; done.
Qed.

Lemma has_key_empty (key : pystr) : has_key ∅ key = false.
Proof. unfold has_key. rewrite lookup_empty. by apply bool_decide_eq_false_2, is_Some_None. Qed.

Lemma has_key_insert (d : dict) (key : pystr) (value : pyval) :
  has_key (<[key := value]> d) key = true.
Proof. unfold has_key. rewrite lookup_insert_eq. by apply bool_decide_eq_true_2. Qed.

Section Filters.
Context `{PyBuiltins}.

Lemma build_date_filter_structured (query_obj : dict) :
  StructuredQuery query_obj →
  build_date_filter query_obj
    = Ok (date_range (date_bound query_obj (u "date_start"))
                     (date_bound query_obj (u "date_end"))).
Proof.
  intros Hq. unfold build_date_filter, date_bound.
  pose proof (structured_dict_get _ (u "date_start") Hq) as Hs.
  pose proof (structured_dict_get _ (u "date_end") Hq) as He.
  destruct (str_field query_obj (u "date_start")) as [s|];
    [destruct Hs as [-> ->] | rewrite Hs]; simpl;
    (destruct (str_field query_obj (u "date_end")) as [e|];
     [destruct He as [-> ->] | rewrite He]); simpl.
  all: repeat match goal with
             | |- context [strptime_ymd ?x] => destruct (strptime_ymd x)
             end; done.
Qed.

Lemma build_search_filters_structured (query_obj : dict) :
  StructuredQuery query_obj →
  build_search_filters query_obj
    = Ok (add_status_filters query_obj
            (with_date
               (date_range (date_bound query_obj (u "date_start"))
                           (date_bound query_obj (u "date_end")))
               (text_filters (str_field query_obj (u "crime_type"))
                             (str_field query_obj (u "location"))))).
Proof.
  intros Hq. unfold build_search_filters.
  rewrite (build_date_filter_structured _ Hq).
  pose proof (structured_dict_get _ (u "crime_type") Hq) as Hc.
  pose proof (structured_dict_get _ (u "location") Hq) as Hl.
  destruct (str_field query_obj (u "crime_type")) as [c|];
    [destruct Hc as [-> ->] | rewrite Hc]; simpl;
    (destruct (str_field query_obj (u "location")) as [l|];
     [destruct Hl as [-> ->] | rewrite Hl]); simpl.
  all: rewrite ?lookup_empty; simpl;
    rewrite ?has_key_insert, ?has_key_empty; simpl;
    unfold dict_get; rewrite ?lookup_insert_eq, ?insert_empty; done.
Qed.

Lemma add_status_filters_lookup (query_obj filters : dict) (key : pystr) :
  key ≠ u "status" → key ≠ u "reported_by" →
  add_status_filters query_obj filters !! key = filters !! key.
Proof.
  intros Hs Hr. unfold add_status_filters.
  repeat case_match; by rewrite ?lookup_insert_ne.
Qed.

Lemma with_date_lookup_ne (date_filter filters : dict) (key : pystr) :
  key ≠ u "date" → with_date date_filter filters !! key = filters !! key.
Proof.
  intros Hk. unfold with_date. case_match; by rewrite ?lookup_insert_ne.
Qed.

Lemma with_date_lookup (lower_bound upper_bound : option datetime)
    (filters : dict) :
  filters !! u "date" = None →
  with_date (date_range lower_bound upper_bound) filters !! u "date"
    = date_range_node lower_bound upper_bound.
Proof.
  intros Hf. unfold with_date.
  destruct lower_bound, upper_bound; simpl.
  - rewrite bool_decide_eq_false_2 by apply insert_non_empty.
    apply lookup_insert_eq.
  - rewrite bool_decide_eq_false_2 by apply map_non_empty_singleton.
    apply lookup_insert_eq.
  - rewrite bool_decide_eq_false_2 by apply map_non_empty_singleton.
    apply lookup_insert_eq.
  - by rewrite bool_decide_eq_true_2.
Qed.

(** C1: when the crime-type field and the location field both hold a
    non-empty string, the filter has an ["$and"] entry made of two ["$or"]
    groups, the first over the fields [crime_type], [crime_category] and
    [crime_subcategory], the second over [location], [city], [address],
    [state] and [country], and it has no ["$or"] entry of its own. *)
Theorem build_search_filters_and_of_ors (query_obj : dict)
    (crime_type location : pystr) :
  StructuredQuery query_obj →
  query_obj !! u "crime_type" = Some (VStr crime_type) → crime_type ≠ [] →
  query_obj !! u "location" = Some (VStr location) → location ≠ [] →
  ∃ filters,
    build_search_filters query_obj = Ok filters
    ∧ filters !! u "$and"
        = Some (VList
            [VDict {[ u "$or" := VList
               [field_regex (u "crime_type") (lower crime_type);
                field_regex (u "crime_category") (lower crime_type);
                field_regex (u "crime_subcategory") (lower crime_type)] ]};
             VDict {[ u "$or" := VList
               [field_regex (u "location") (lower location);
                field_regex (u "city") (lower location);
                field_regex (u "address") (lower location);
                field_regex (u "state") (lower location);
                field_regex (u "country") (lower location)] ]}])
    ∧ filters !! u "$or" = None.
Proof.
  intros Hq Hc Hcne Hl Hlne. eexists. split.
  { by apply build_search_filters_structured. }
  unfold str_field. rewrite Hc, Hl.
  destruct crime_type as [|c cs]; [done|].
  destruct location as [|l ls]; [done|]. simpl.
  rewrite !add_status_filters_lookup by key_ne.
  rewrite !with_date_lookup_ne by key_ne.
  split; [apply lookup_singleton_eq|].
  apply lookup_singleton_ne. key_ne.
Qed.

Lemma build_mongo_query_structured (parsed_query : dict) :
  StructuredQuery parsed_query →
  build_mongo_query parsed_query
    = Ok (add_status_filters parsed_query
            (with_date
               (date_range (date_bound parsed_query (u "date_start"))
                           (date_bound parsed_query (u "date_end")))
               (mongo_text_filters
                  (str_field parsed_query (u "crime_category"))
                  (str_field parsed_query (u "location"))))).
Proof.
  intros Hq. unfold build_mongo_query.
  rewrite (build_date_filter_structured _ Hq).
  pose proof (structured_dict_get _ (u "crime_category") Hq) as Hc.
  pose proof (structured_dict_get _ (u "location") Hq) as Hl.
  destruct (str_field parsed_query (u "crime_category")) as [c|];
    [destruct Hc as [-> ->] | rewrite Hc]; simpl;
    (destruct (str_field parsed_query (u "location")) as [l|];
     [destruct Hl as [-> ->] | rewrite Hl]); simpl;
    by rewrite ?insert_empty.
Qed.

Lemma text_filters_no_date (crime_type location : option pystr) :
  text_filters crime_type location !! u "date" = None.
Proof.
  destruct crime_type, location; simpl;
    rewrite ?lookup_empty; try done; apply lookup_singleton_ne; key_ne.
Qed.

Lemma mongo_text_filters_no_date (crime_category location : option pystr) :
  mongo_text_filters crime_category location !! u "date" = None.
Proof.
  destruct crime_category, location; simpl;
    rewrite ?lookup_insert_ne by key_ne;
    rewrite ?lookup_empty; try done; apply lookup_singleton_ne; key_ne.
Qed.

(** C3: a date field whose value does not parse contributes no bound and no
    error is raised; the bounds that do parse are held by one filter, stored
    under ["date"], with ["$gte"] for the lower and ["$lte"] for the upper
    bound, and when no bound is left there is no date filter at all.  The
    same holds of [build_mongo_query]. *)
Theorem build_search_filters_date_range (query_obj : dict) :
  StructuredQuery query_obj →
  ∃ filters mongo_query,
    build_search_filters query_obj = Ok filters
    ∧ build_mongo_query query_obj = Ok mongo_query
    ∧ filters !! u "date"
        = date_range_node (date_bound query_obj (u "date_start"))
                          (date_bound query_obj (u "date_end"))
    ∧ mongo_query !! u "date"
        = date_range_node (date_bound query_obj (u "date_start"))
                          (date_bound query_obj (u "date_end")).
Proof.
  intros Hq. eexists _, _.
  split; [by apply build_search_filters_structured|].
  split; [by apply build_mongo_query_structured|].
  rewrite !add_status_filters_lookup by key_ne.
  split; apply with_date_lookup.
  - apply text_filters_no_date.
  - apply mongo_text_filters_no_date.
Qed.

End Filters.

Lemma structured_query_intro (query_obj : dict) :
  forallb (λ kv, match kv.2 with VNone | VStr _ => true | _ => false end)
          (map_to_list query_obj) = true →
  StructuredQuery query_obj.
Proof.
  rewrite forallb_forall. intros Hall key value Hkv.
  apply elem_of_map_to_list, list_elem_of_In in Hkv.
  specialize (Hall _ Hkv). simpl in Hall.
  destruct value; eauto; discriminate.
Qed.

Lemma build_search_filters_and_of_ors_witness :
  ∃ filters,
    build_search_filters (H := AsciiBuiltins.builtins)
      {[ u "crime_type" := VStr (u "Theft"); u "location" := VStr (u "Mumbai");
         u "status" := VStr (u "open"); u "date_start" := VNone ]}
      = Ok filters
    ∧ filters !! u "$and"
        = Some (VList
            [VDict {[ u "$or" := VList
               [field_regex (u "crime_type") (u "theft");
                field_regex (u "crime_category") (u "theft");
                field_regex (u "crime_subcategory") (u "theft")] ]};
             VDict {[ u "$or" := VList
               [field_regex (u "location") (u "mumbai");
                field_regex (u "city") (u "mumbai");
                field_regex (u "address") (u "mumbai");
                field_regex (u "state") (u "mumbai");
                field_regex (u "country") (u "mumbai")] ]}])
    ∧ filters !! u "$or" = None.
Proof.
  apply (build_search_filters_and_of_ors (H := AsciiBuiltins.builtins)
           _ (u "Theft") (u "Mumbai")).
  - apply structured_query_intro. vm_compute. reflexivity.
  - vm_compute. reflexivity.
  - vm_compute. discriminate.
  - vm_compute. reflexivity.
  - vm_compute. discriminate.
Defined.

Lemma build_search_filters_date_range_witness :
  ∃ filters mongo_query,
    build_search_filters (H := AsciiBuiltins.builtins)
      {[ u "date_start" := VStr (u "not-a-date");
         u "date_end" := VStr (u "2023-02-22") ]} = Ok filters
    ∧ build_mongo_query (H := AsciiBuiltins.builtins)
        {[ u "date_start" := VStr (u "not-a-date");
           u "date_end" := VStr (u "2023-02-22") ]} = Ok mongo_query
    ∧ filters !! u "date"
        = Some (VDict {[ u "$lte" := VDatetime (mk_datetime 2023 2 22) ]})
    ∧ mongo_query !! u "date"
        = Some (VDict {[ u "$lte" := VDatetime (mk_datetime 2023 2 22) ]}).
Proof.
  assert (Hq : StructuredQuery {[ u "date_start" := VStr (u "not-a-date");
                                  u "date_end" := VStr (u "2023-02-22") ]}).
  { apply structured_query_intro. vm_compute. reflexivity. }
  exact (build_search_filters_date_range (H := AsciiBuiltins.builtins) _ Hq).
Defined.

(** ** The record-array search *)

Section Search.
Context `{PyBuiltins}.

Lemma search_words_loop_existsb (search_words : list pystr) (value_str : pystr)
    (match_found : bool) :
  search_words_loop search_words value_str match_found
    = match_found || existsb (λ word, contains word value_str) search_words.
Proof.
  induction search_words as [|word rest IH]; simpl.
  - by rewrite orb_false_r.
  - destruct (contains word value_str); [by rewrite orb_true_r | done].
Qed.

Lemma search_fields_loop_existsb (items : list (pystr * pyval))
    (search_words : list pystr) :
  search_fields_loop items search_words false
    = existsb (λ item, value_matches search_words item.2) items.
Proof.
  induction items as [|[field value] rest IH]; [done|].
  cbn [search_fields_loop existsb snd].
  destruct value; simpl; try done;
    rewrite search_words_loop_existsb; simpl;
    by destruct (existsb _ search_words).
Qed.

Lemma value_matches_spec (search_words : list pystr) (value : pyval) :
  value_matches search_words value = true ↔
  value ≠ VNone
  ∧ ∃ word, word ∈ search_words ∧ is_substring word (lower (py_str value)).
Proof.
  assert (existsb (λ word, contains word (lower (py_str value))) search_words
            = true ↔
          ∃ word, word ∈ search_words
                  ∧ is_substring word (lower (py_str value))) as Hex.
  { rewrite existsb_exists. setoid_rewrite contains_spec.
    by setoid_rewrite list_elem_of_In. }
  destruct value; simpl; rewrite ?Hex; try (split; [by intros [_ ?] | done]);
    split; (intros; try split; try done); tauto.
Qed.

Lemma search_fields_loop_spec (record : dict) (search_words : list pystr) :
  search_fields_loop (map_to_list record) search_words false = true ↔
  record_matches search_words record.
Proof.
  rewrite search_fields_loop_existsb, existsb_exists. unfold record_matches.
  split.
  - intros ([field value] & Hin & Hm). simpl in Hm.
    apply list_elem_of_In, elem_of_map_to_list in Hin.
    apply value_matches_spec in Hm as (Hv & word & Hw & Hsub).
    by exists word, field, value.
  - intros (word & field & value & Hw & Hf & Hv & Hsub).
    exists (field, value). split.
    + by apply list_elem_of_In, elem_of_map_to_list.
    + apply value_matches_spec. eauto.
Qed.

Lemma search_records_loop_filter (records : list dict)
    (search_words : list pystr) (matching_records : list dict) :
  search_records_loop records search_words matching_records
    = matching_records
      ++ List.filter
           (λ record,
              search_fields_loop (map_to_list record) search_words false)
           records.
Proof.
  revert matching_records.
  induction records as [|record rest IH]; intros matching_records; simpl.
  - by rewrite app_nil_r.
  - rewrite IH.
    destruct (search_fields_loop (map_to_list record) search_words false);
      [by rewrite <- app_assoc | done].
Qed.

(** C9: with no query text, or the empty text, the search returns the record
    list it was given.  Otherwise it returns the records, in their input
    order and as they were given, that some whitespace-separated word of the
    lower-cased text matches: the result is the input list filtered by a test
    that holds exactly of the matching records. *)
Theorem search_record_array_spec (records : list dict) :
  search_record_array records None = records
  ∧ search_record_array records (Some []) = records
  ∧ ∀ search_terms, search_terms ≠ [] →
      ∃ keep : dict → bool,
        (∀ record,
           keep record = true ↔
           record_matches (str_split (lower search_terms)) record)
        ∧ search_record_array records (Some search_terms)
            = List.filter keep records.
Proof.
  split; [done|]. split; [done|].
  intros [|c s] Hne; [done|].
  exists (λ record,
            search_fields_loop (map_to_list record)
              (str_split (lower (c :: s))) false).
  split.
  - intros record. apply search_fields_loop_spec.
  - unfold search_record_array. by rewrite search_records_loop_filter.
Qed.

End Search.

(** ** The synonym normalizer *)

Lemma dict_get_Some (d : dict) (key : pystr) (value : pyval) :
  d !! key = Some value → dict_get d key = value.
Proof. intros Hd. unfold dict_get. by rewrite Hd. Qed.

(** The loop stops at the first entry, in table order, whose synonym occurs
    in the text. *)
Lemma synonyms_loop_Some (items : list (pystr * pystr)) (text standard : pystr) :
  synonyms_loop items text = Some standard ↔
  ∃ before synonym after,
    items = before ++ (synonym, standard) :: after
    ∧ is_substring synonym text
    ∧ ∀ synonym' standard',
        (synonym', standard') ∈ before → ¬ is_substring synonym' text.
Proof.
  induction items as [|[syn std] rest IH]; simpl.
  - split; [done|]. by intros ([|[]] & ? & ? & ? & _).
  - destruct (contains syn text) eqn:Hc.
    + apply contains_spec in Hc. split.
      * intros [= ->]. exists [], syn, rest.
        split; [done|]. split; [done|]. intros ?? Hin. by apply elem_of_nil in Hin.
      * intros ([|[syn' std'] before] & synonym & after & Heq & Hsub & Hnone).
        -- by injection Heq as _ -> _.
        -- injection Heq as <- <- _. exfalso. eapply Hnone; [left | done].
    + apply contains_false in Hc. rewrite IH. split.
      * intros (before & synonym & after & -> & Hsub & Hnone).
        exists ((syn, std) :: before), synonym, after.
        split; [done|]. split; [done|].
        intros ?? [[= -> ->] | Hin]%elem_of_cons; eauto.
      * intros ([|[syn' std'] before] & synonym & after & Heq & Hsub & Hnone).
        -- by injection Heq as <- _ _.
        -- injection Heq as <- <- ->. exists before, synonym, after.
           split; [done|]. split; [done|].
           intros ?? Hin. eapply Hnone. by right.
Qed.

Lemma synonyms_loop_None (items : list (pystr * pystr)) (text : pystr) :
  synonyms_loop items text = None ↔
  ∀ synonym standard, (synonym, standard) ∈ items → ¬ is_substring synonym text.
Proof.
  induction items as [|[syn std] rest IH]; simpl.
  - split; [|done]. intros _ ?? Hin. by apply elem_of_nil in Hin.
  - destruct (contains syn text) eqn:Hc.
    + apply contains_spec in Hc. split; [done|].
      intros Hnone. exfalso. eapply Hnone; [left | done].
    + apply contains_false in Hc. rewrite IH. split.
      * intros Hnone ?? [[= -> ->] | Hin]%elem_of_cons; eauto.
      * intros Hnone ?? Hin. eapply Hnone. by right.
Qed.

Lemma no_synonym_check (text : pystr) :
  forallb (λ entry, negb (contains entry.1 text)) crime_synonyms = true →
  ∀ synonym standard,
    (synonym, standard) ∈ crime_synonyms → ¬ is_substring synonym text.
Proof.
  rewrite forallb_forall. intros Hall synonym standard Hin.
  apply list_elem_of_In, Hall in Hin. simpl in Hin.
  apply contains_false. by destruct (contains synonym text).
Qed.

Section Synonyms.
Context `{PyBuiltins}.

(** C5, amended: when no synonym occurs in the lower-cased value of
    [crime_category], the normalizer returns the query object it was given
    with nothing changed, so the field keeps its original value, in its
    original letter case. *)
Theorem translate_synonyms_no_match (σ : store) (query_dict : loc) (d : dict)
    (s : pystr) :
  σ !! query_dict = Some d →
  d !! u "crime_category" = Some (VStr s) →
  (∀ synonym standard,
     (synonym, standard) ∈ crime_synonyms →
     ¬ is_substring synonym (lower s)) →
  ∃ σ', translate_synonyms query_dict σ = Ok (query_dict, σ')
        ∧ σ' = σ
        ∧ σ' !! query_dict ≫= (.!! u "crime_category") = Some (VStr s).
Proof.
  intros Hσ Hd Hnone. exists σ. split; [|split; [done|]].
  - unfold translate_synonyms. rewrite Hσ, (dict_get_Some _ _ _ Hd).
    destruct s as [|c s]; [done|].
    cbn [truthy str_lower mbind result_bind].
    by rewrite (proj2 (synonyms_loop_None _ _) Hnone).
  - by rewrite Hσ.
Qed.

(** C6, amended: the normalizer returns the reference it was given and works
    on that object in place.  When a synonym occurs in the lower-cased value
    of [crime_category], the field of the input object is overwritten with
    the standard term of the first such synonym in table order; otherwise the
    object is left as it was.  No other field and no other object changes. *)
Theorem translate_synonyms_in_place (σ : store) (query_dict : loc) (d : dict) :
  σ !! query_dict = Some d →
  StructuredQuery d →
  ∃ d',
    translate_synonyms query_dict σ = Ok (query_dict, <[query_dict := d']> σ)
    ∧ (∀ key, key ≠ u "crime_category" → d' !! key = d !! key)
    ∧ match str_field d (u "crime_category") with
      | Some s =>
          (∀ standard,
             synonyms_loop crime_synonyms (lower s) = Some standard →
             d' = <[u "crime_category" := VStr standard]> d)
          ∧ (synonyms_loop crime_synonyms (lower s) = None → d' = d)
      | None => d' = d
      end.
Proof.
  intros Hσ Hq. unfold translate_synonyms. rewrite Hσ.
  pose proof (structured_dict_get _ (u "crime_category") Hq) as Hc.
  destruct (str_field d (u "crime_category")) as [s|].
  - destruct Hc as [-> ->]. cbn [str_lower mbind result_bind].
    destruct (synonyms_loop crime_synonyms (lower s)) as [standard|].
    + exists (<[u "crime_category" := VStr standard]> d).
      split; [done|]. split.
      * intros key Hkey. by rewrite lookup_insert_ne.
      * split; [by intros ? [= ->] | done].
    + exists d. by rewrite insert_id.
  - rewrite Hc. exists d. by rewrite insert_id.
Qed.

End Synonyms.

(** C5 as stated fails on [{"crime_category": "XYZ"}]: no synonym occurs in
    ["xyz"], and the field comes out as ["XYZ"], not lower-cased. *)
Lemma translate_synonyms_keeps_case :
  synonyms_loop crime_synonyms (ascii_lower (u "XYZ")) = None
  ∧ ascii_lower (u "XYZ") = u "xyz"
  ∧ ∃ σ',
      translate_synonyms (H := AsciiBuiltins.builtins) 1%nat
        {[ 1%nat := {[ u "crime_category" := VStr (u "XYZ") ]} ]}
        = Ok (1%nat, σ')
      ∧ σ' !! 1%nat ≫= (.!! u "crime_category") = Some (VStr (u "XYZ"))
      ∧ u "XYZ" ≠ u "xyz".
Proof.
  split; [by vm_compute|]. split; [by vm_compute|].
  eexists. split; [by vm_compute|]. split; [by vm_compute|].
  vm_compute. discriminate.
Qed.

Lemma translate_synonyms_no_match_witness :
  ∃ σ',
    translate_synonyms (H := AsciiBuiltins.builtins) 1%nat
      {[ 1%nat := {[ u "crime_category" := VStr (u "XYZ") ]} ]}
      = Ok (1%nat, σ')
    ∧ σ' = {[ 1%nat := {[ u "crime_category" := VStr (u "XYZ") ]} ]}
    ∧ σ' !! 1%nat ≫= (.!! u "crime_category") = Some (VStr (u "XYZ")).
Proof.
  apply (translate_synonyms_no_match (H := AsciiBuiltins.builtins)
           _ 1%nat {[ u "crime_category" := VStr (u "XYZ") ]} (u "XYZ")).
  - apply lookup_singleton_eq.
  - apply lookup_singleton_eq.
  - apply no_synonym_check. vm_compute. reflexivity.
Defined.

(** C6 as stated fails on [{"crime_category": "stealing"}]: the call returns
    the reference it was given, and the object it designates now holds
    ["theft"]. *)
Lemma translate_synonyms_mutates_input :
  translate_synonyms (H := AsciiBuiltins.builtins) 1%nat
    {[ 1%nat := {[ u "crime_category" := VStr (u "stealing") ]} ]}
    = Ok (1%nat, {[ 1%nat := {[ u "crime_category" := VStr (u "theft") ]} ]})
  ∧ ({[ 1%nat := {[ u "crime_category" := VStr (u "stealing") ]} ]} : store)
      !! 1%nat
    ≠ ({[ 1%nat := {[ u "crime_category" := VStr (u "theft") ]} ]} : store)
      !! 1%nat.
Proof.
  split.
  - unfold translate_synonyms. rewrite lookup_singleton_eq.
    rewrite (dict_get_Some _ _ (VStr (u "stealing")))
      by apply lookup_singleton_eq.
    cbn [truthy str_lower mbind result_bind lower AsciiBuiltins.builtins].
    replace (synonyms_loop crime_synonyms (ascii_lower (u "stealing")))
      with (Some (u "theft")) by (by vm_compute).
    by rewrite insert_singleton_eq, insert_singleton_eq.
  - rewrite !lookup_singleton_eq. by intros [=].
Qed.

Lemma translate_synonyms_in_place_witness :
  ∃ d',
    translate_synonyms (H := AsciiBuiltins.builtins) 1%nat
      {[ 1%nat := {[ u "crime_category" := VStr (u "stealing") ]} ]}
      = Ok (1%nat,
            <[1%nat := d']>
              {[ 1%nat := {[ u "crime_category" := VStr (u "stealing") ]} ]})
    ∧ (∀ key, key ≠ u "crime_category" →
         d' !! key
         = ({[ u "crime_category" := VStr (u "stealing") ]} : dict) !! key)
    ∧ ((∀ standard,
          synonyms_loop crime_synonyms (ascii_lower (u "stealing"))
            = Some standard →
          d' = <[u "crime_category" := VStr standard]>
                 {[ u "crime_category" := VStr (u "stealing") ]})
       ∧ (synonyms_loop crime_synonyms (ascii_lower (u "stealing")) = None →
          d' = {[ u "crime_category" := VStr (u "stealing") ]})).
Proof.
  assert (Hq : StructuredQuery
                 {[ u "crime_category" := VStr (u "stealing") ]}).
  { apply structured_query_intro. vm_compute. reflexivity. }
  exact (translate_synonyms_in_place (H := AsciiBuiltins.builtins)
           {[ 1%nat := {[ u "crime_category" := VStr (u "stealing") ]} ]}
           1%nat _ (lookup_singleton_eq _ _) Hq).
Defined.

(** ** The code on the data of the repository's tests

    [test_core_features.py], evaluated with the example built-ins. *)

Module Tests.
Import AsciiBuiltins TestData.
#[local] Existing Instance builtins.

Example test_detect_data_format_query_object :
  detect_data_format (VDict sparse_query) = Ok query_object.
Proof. by vm_compute. Qed.

Example test_detect_data_format_record_array :
  detect_data_format (VList (VDict <$> sample_records)) = Ok record_array.
Proof. by vm_compute. Qed.

Example test_normalize_query_object :
  normalize_query_object sparse_query
    = {[ u "location" := VStr (u "Maharashtra") ]}.
Proof. by vm_compute. Qed.

Example test_build_search_filters :
  build_search_filters (normalize_query_object sparse_query)
    = Ok {[ u "$or" := VList (location_conditions (u "maharashtra")) ]}.
Proof. by vm_compute. Qed.

Example test_search_record_array :
  search_record_array sample_records (Some (u "Maharashtra")) = sample_records.
Proof. by vm_compute. Qed.

Example test_search_record_array_specific_term :
  search_record_array sample_records (Some (u "Burglary")) = [burglary_record].
Proof. by vm_compute. Qed.

Example test_handle_null_empty_fields :
  handle_null_empty_fields
    [ {[ u "field1" := VStr (u "value1"); u "field2" := VNone;
         u "field3" := VStr [] ]};
      {[ u "field1" := VStr (u "value2"); u "field2" := VStr (u "value");
         u "field3" := VList [] ]} ]
  = [ {[ u "field1" := VStr (u "value1"); u "field2" := VStr (u "N/A");
         u "field3" := VStr (u "N/A") ]};
      {[ u "field1" := VStr (u "value2"); u "field2" := VStr (u "value");
         u "field3" := VStr (u "N/A") ]} ].
Proof. by vm_compute. Qed.

Example test_process_dynamic_data_query_object :
  process_dynamic_data (VDict sparse_query) None
  = [VDict {[ u "query_filters" :=
                VDict {[ u "$or" :=
                           VList (location_conditions (u "maharashtra")) ]};
              u "format" := VStr (u "query_object") ]}].
Proof. by vm_compute. Qed.

Example test_process_dynamic_data_record_array :
  process_dynamic_data (VList (VDict <$> sample_records))
    (Some (u "Maharashtra"))
  = VDict <$> sample_records.
Proof. by vm_compute. Qed.

Example build_search_filters_both_bounds :
  build_search_filters
    {[ u "date_start" := VStr (u "2023-01-01");
       u "date_end" := VStr (u "2023-12-31") ]}
  = Ok {[ u "date" :=
            VDict {[ u "$gte" := VDatetime (mk_datetime 2023 1 1);
                     u "$lte" := VDatetime (mk_datetime 2023 12 31) ]} ]}.
Proof. by vm_compute. Qed.

Example build_search_filters_not_a_date :
  build_search_filters {[ u "date_start" := VStr (u "not-a-date") ]} = Ok ∅.
Proof. by vm_compute. Qed.

Example translate_synonyms_hindi :
  translate_synonyms 1%nat {[ 1%nat := {[ u "crime_category" := VStr (u "चोरी") ]} ]}
  = Ok (1%nat, {[ 1%nat := {[ u "crime_category" := VStr (u "theft") ]} ]}).
Proof. by vm_compute. Qed.

(** Outside structured queries: a field that holds a number makes the filter
    builder raise. *)
Example build_search_filters_number_as_date :
  build_search_filters {[ u "date_start" := VInt 20230101 ]} = Raise TypeError.
Proof. by vm_compute. Qed.

Example build_search_filters_number_as_crime_type :
  build_search_filters {[ u "crime_type" := VInt 7 ]} = Raise AttributeError.
Proof. by vm_compute. Qed.

End Tests.

(** * Further properties *)

(** ** The query-object normalizer, continued *)

(** X1: The normalizer never adds a field: a field is in the output exactly when
    the input has it with a value other than [None], the empty string and
    the empty list, and its value is then the input value, trimmed when it
    is a string and untouched otherwise. *)
Theorem normalize_query_object_fields (query_obj : dict) (key : pystr)
    (value' : pyval) :
  normalize_query_object query_obj !! key = Some value' ↔
  ∃ value,
    query_obj !! key = Some value
    ∧ value ≠ VNone ∧ value ≠ VStr [] ∧ value ≠ VList []
    ∧ value' = match value with VStr s => VStr (strip s) | _ => value end.
Proof.
  rewrite normalize_query_object_lookup.
  destruct (query_obj !! key) as [value|]; simpl.
  - unfold normalize_value. split.
    + destruct (is_filled value) eqn:Hf; [|done]. intros [= <-].
      exists value. by destruct value as [| | | |[|]|[|]| |].
    + intros (v & [= <-] & Hn & Hs & Hl & ->).
      by destruct value as [| | | |[|]|[|]| |].
  - split; [done|]. by intros (v & ? & _).
Qed.

(** ** The null/empty canonicalizer, continued *)

Lemma clean_value_not_blank_after (value : pyval) :
  ¬ null_or_blank (clean_value value).
Proof.
  assert (¬ null_or_blank (VStr (u "N/A"))) as Hna.
  { intros [? | [(s & [= <-] & Hs) | ?]]; done. }
  unfold clean_value.
  destruct value as [| | | |s|[|]| |]; try done;
    try (intros [? | [(s' & ? & _) | ?]]; discriminate).
  case_bool_decide as Hs; [done|].
  intros [? | [(s' & [= <-] & Hs') | ?]]; done.
Qed.

(** X2: No value of a canonicalized record is [None], an empty list or a string
    that is empty once trimmed. *)
Theorem handle_null_empty_fields_no_blank (records : list dict) :
  Forall
    (map_Forall (λ (_ : pystr) value,
       value ≠ VNone ∧ value ≠ VList []
       ∧ ∀ s, value = VStr s → strip s ≠ []))
    (handle_null_empty_fields records).
Proof.
  rewrite handle_null_empty_fields_fmap. apply Forall_fmap, Forall_true.
  intros record field value. unfold clean_record. simpl. rewrite lookup_fmap.
  destruct (record !! field) as [v|]; [|done]. intros [= <-].
  pose proof (clean_value_not_blank_after v) as Hnb. unfold null_or_blank in Hnb.
  split; [|split]; [naive_solver..|]. intros s Hs Hstrip. apply Hnb. eauto.
Qed.

(** X3: Canonicalizing a canonicalized record list changes nothing. *)
Theorem handle_null_empty_fields_idempotent (records : list dict) :
  handle_null_empty_fields (handle_null_empty_fields records)
    = handle_null_empty_fields records.
Proof.
  rewrite !handle_null_empty_fields_fmap, <- list_fmap_compose.
  apply list_fmap_ext. intros _ record _. simpl. unfold clean_record.
  rewrite <- map_fmap_compose. apply map_fmap_ext. intros _ value _. simpl.
  apply clean_value_not_blank, clean_value_not_blank_after.
Qed.

(** ** The filter builder, continued *)

Section FiltersMore.
Context `{PyBuiltins}.

Lemma dict_get_agree (d1 d2 : dict) (key : pystr) :
  d1 !! key = d2 !! key → dict_get d1 key = dict_get d2 key.
Proof. unfold dict_get. by intros ->. Qed.

Lemma add_status_filters_status (query_obj filters : dict) :
  StructuredQuery query_obj →
  filters !! u "status" = None →
  add_status_filters query_obj filters !! u "status"
    = (λ s, regex_i (VStr s)) <$> str_field query_obj (u "status").
Proof.
  intros Hq Hf. unfold add_status_filters.
  pose proof (structured_dict_get _ (u "status") Hq) as Hs.
  pose proof (structured_dict_get _ (u "reported_by") Hq) as Hr.
  destruct (str_field query_obj (u "status")) as [s|];
    [destruct Hs as [-> ->] | rewrite Hs];
    (destruct (str_field query_obj (u "reported_by")) as [r|];
     [destruct Hr as [-> ->] | rewrite Hr]); simpl;
    rewrite ?lookup_insert_ne by key_ne; by rewrite ?lookup_insert_eq.
Qed.

Lemma add_status_filters_reported_by (query_obj filters : dict) :
  StructuredQuery query_obj →
  filters !! u "reported_by" = None →
  add_status_filters query_obj filters !! u "reported_by"
    = (λ s, regex_i (VStr s)) <$> str_field query_obj (u "reported_by").
Proof.
  intros Hq Hf. unfold add_status_filters.
  pose proof (structured_dict_get _ (u "status") Hq) as Hs.
  pose proof (structured_dict_get _ (u "reported_by") Hq) as Hr.
  destruct (str_field query_obj (u "status")) as [s|];
    [destruct Hs as [-> ->] | rewrite Hs];
    (destruct (str_field query_obj (u "reported_by")) as [r|];
     [destruct Hr as [-> ->] | rewrite Hr]); simpl;
    rewrite ?lookup_insert_eq; try done;
    by rewrite ?lookup_insert_ne by key_ne.
Qed.

Lemma add_status_filters_is_Some (query_obj filters : dict) (key : pystr) :
  is_Some (add_status_filters query_obj filters !! key) →
  key = u "status" ∨ key = u "reported_by" ∨ is_Some (filters !! key).
Proof.
  destruct (decide (key = u "status")) as [|Hs]; [by left|].
  destruct (decide (key = u "reported_by")) as [|Hr]; [by right; left|].
  rewrite add_status_filters_lookup by done. by right; right.
Qed.

Lemma with_date_is_Some (date_filter filters : dict) (key : pystr) :
  is_Some (with_date date_filter filters !! key) →
  key = u "date" ∨ is_Some (filters !! key).
Proof.
  destruct (decide (key = u "date")) as [|Hd]; [by left|].
  rewrite with_date_lookup_ne by done. by right.
Qed.

Lemma text_filters_lookup_other (crime_type location : option pystr)
    (key : pystr) :
  key ≠ u "$and" → key ≠ u "$or" →
  text_filters crime_type location !! key = None.
Proof.
  intros Ha Ho. destruct crime_type, location; simpl;
    by rewrite ?lookup_singleton_ne, ?lookup_empty.
Qed.

Lemma mongo_text_filters_lookup_other (crime_category location : option pystr)
    (key : pystr) :
  key ≠ u "crime_category" → key ≠ u "$or" →
  mongo_text_filters crime_category location !! key = None.
Proof.
  intros Ha Ho. destruct crime_category, location; simpl;
    by rewrite ?lookup_insert_ne, ?lookup_singleton_ne, ?lookup_empty.
Qed.

Lemma filter_entries_intro (query_obj text : dict) :
  StructuredQuery query_obj →
  text !! u "date" = None → text !! u "status" = None →
  text !! u "reported_by" = None →
  filter_entries query_obj text
    (add_status_filters query_obj
       (with_date (date_range (date_bound query_obj (u "date_start"))
                              (date_bound query_obj (u "date_end"))) text)).
Proof.
  intros Hq Hd Hs Hr. split; [|split; [|split]].
  - intros key ???. by rewrite add_status_filters_lookup, with_date_lookup_ne.
  - rewrite add_status_filters_lookup by key_ne. by apply with_date_lookup.
  - apply add_status_filters_status; [done|].
    by rewrite with_date_lookup_ne by key_ne.
  - apply add_status_filters_reported_by; [done|].
    by rewrite with_date_lookup_ne by key_ne.
Qed.

Lemma build_search_filters_entries (query_obj : dict) :
  StructuredQuery query_obj →
  ∃ filters,
    build_search_filters query_obj = Ok filters
    ∧ filter_entries query_obj
        (text_filters (str_field query_obj (u "crime_type"))
                      (str_field query_obj (u "location"))) filters.
Proof.
  intros Hq. eexists. split; [by apply build_search_filters_structured|].
  apply filter_entries_intro; [done|..]; apply text_filters_lookup_other; key_ne.
Qed.

Lemma build_mongo_query_entries (parsed_query : dict) :
  StructuredQuery parsed_query →
  ∃ mongo_query,
    build_mongo_query parsed_query = Ok mongo_query
    ∧ filter_entries parsed_query
        (mongo_text_filters (str_field parsed_query (u "crime_category"))
                            (str_field parsed_query (u "location")))
        mongo_query.
Proof.
  intros Hq. eexists. split; [by apply build_mongo_query_structured|].
  apply filter_entries_intro; [done|..];
    apply mongo_text_filters_lookup_other; key_ne.
Qed.

(** X4: The filter builder reads the six fields [crime_type], [location],
    [date_start], [date_end], [status] and [reported_by] and nothing else: two
    query objects that agree on them get the same filter (or the same
    error).  In particular [crime_category] and [crime_subcategory] in the
    query are ignored. *)
Theorem build_search_filters_reads_six_fields (query_obj query_obj' : dict) :
  (∀ field, field ∈ query_fields → query_obj !! field = query_obj' !! field) →
  build_search_filters query_obj = build_search_filters query_obj'.
Proof.
  intros Hagree.
  assert (∀ field, field ∈ query_fields →
            dict_get query_obj field = dict_get query_obj' field) as Hget.
  { intros field Hin. by apply dict_get_agree, Hagree. }
  unfold build_search_filters, build_date_filter, add_status_filters.
  rewrite !(Hget (u "crime_type")), !(Hget (u "location")),
    !(Hget (u "date_start")), !(Hget (u "date_end")),
    !(Hget (u "status")), !(Hget (u "reported_by")); [done|..];
    apply list_elem_of_In; vm_compute; tauto.
Qed.

(** X5: For a structured query the status and reporter filters are
    case-insensitive regex matches whose pattern is the field value as given
    (not lower-cased, unlike the category and location patterns); a field
    that is absent, [None] or empty adds no entry. *)
Theorem build_search_filters_status (query_obj : dict) :
  StructuredQuery query_obj →
  ∃ filters,
    build_search_filters query_obj = Ok filters
    ∧ filters !! u "status"
        = (λ s, regex_i (VStr s)) <$> str_field query_obj (u "status")
    ∧ filters !! u "reported_by"
        = (λ s, regex_i (VStr s)) <$> str_field query_obj (u "reported_by").
Proof.
  intros Hq.
  destruct (build_search_filters_entries _ Hq) as (f & Hf & _ & _ & Hs & Hr).
  by exists f.
Qed.

(** X6: For a structured query with only one of crime type and location, the
    group of that field is the top-level ["$or"] and there is no ["$and"];
    with neither there is no ["$or"] and no ["$and"]. *)
Theorem build_search_filters_one_group (query_obj : dict) :
  StructuredQuery query_obj →
  ∃ filters,
    build_search_filters query_obj = Ok filters
    ∧ (∀ location,
         str_field query_obj (u "crime_type") = None →
         str_field query_obj (u "location") = Some location →
         filters !! u "$or"
           = Some (VList (location_conditions (lower location)))
         ∧ filters !! u "$and" = None)
    ∧ (∀ crime_type,
         str_field query_obj (u "crime_type") = Some crime_type →
         str_field query_obj (u "location") = None →
         filters !! u "$or"
           = Some (VList (crime_type_conditions (lower crime_type)))
         ∧ filters !! u "$and" = None)
    ∧ (str_field query_obj (u "crime_type") = None →
       str_field query_obj (u "location") = None →
       filters !! u "$or" = None ∧ filters !! u "$and" = None).
Proof.
  intros Hq.
  destruct (build_search_filters_entries _ Hq) as (f & Hf & Htext & _).
  exists f. split; [done|].
  rewrite !Htext by key_ne. split; [|split].
  - intros l -> ->. simpl. split; [apply lookup_singleton_eq|].
    apply lookup_singleton_ne. key_ne.
  - intros c -> ->. simpl. split; [apply lookup_singleton_eq|].
    apply lookup_singleton_ne. key_ne.
  - intros -> ->. simpl. by rewrite lookup_empty.
Qed.

(** X7: For a structured query the filter has no key other than ["$and"],
    ["$or"], ["date"], ["status"] and ["reported_by"], and never has both
    ["$and"] and ["$or"]. *)
Theorem build_search_filters_keys (query_obj : dict) :
  StructuredQuery query_obj →
  ∃ filters,
    build_search_filters query_obj = Ok filters
    ∧ (∀ key, is_Some (filters !! key) →
         key ∈ [u "$and"; u "$or"; u "date"; u "status"; u "reported_by"])
    ∧ (filters !! u "$and" = None ∨ filters !! u "$or" = None).
Proof.
  intros Hq.
  destruct (build_search_filters_entries _ Hq) as (f & Hf & Htext & _).
  exists f. split; [done|]. split.
  - intros key Hkey. rewrite !elem_of_cons.
    destruct (decide (key = u "date")) as [|Hd]; [tauto|].
    destruct (decide (key = u "status")) as [|Hs]; [tauto|].
    destruct (decide (key = u "reported_by")) as [|Hr]; [tauto|].
    destruct (decide (key = u "$and")) as [|Ha]; [tauto|].
    destruct (decide (key = u "$or")) as [|Ho]; [tauto|].
    rewrite Htext, text_filters_lookup_other in Hkey by done.
    by destruct Hkey.
  - rewrite !Htext by key_ne.
    destruct (str_field query_obj (u "crime_type")),
      (str_field query_obj (u "location")); simpl;
      rewrite ?lookup_empty;
      first [ by left | by right
            | right; apply lookup_singleton_ne; key_ne
            | left; apply lookup_singleton_ne; key_ne ].
Qed.

(** X8: For a structured query the filter is empty (it matches every record)
    exactly when no field contributes: no non-empty crime type, location,
    status or reporter, and no date that parses. *)
Theorem build_search_filters_empty (query_obj : dict) :
  StructuredQuery query_obj →
  build_search_filters query_obj = Ok ∅ ↔
  str_field query_obj (u "crime_type") = None
  ∧ str_field query_obj (u "location") = None
  ∧ date_bound query_obj (u "date_start") = None
  ∧ date_bound query_obj (u "date_end") = None
  ∧ str_field query_obj (u "status") = None
  ∧ str_field query_obj (u "reported_by") = None.
Proof.
  intros Hq.
  destruct (build_search_filters_entries _ Hq)
    as (f & Hf & Htext & Hd & Hst & Hrep).
  pose proof (Htext (u "$and") ltac:(key_ne) ltac:(key_ne) ltac:(key_ne))
    as Hand.
  pose proof (Htext (u "$or") ltac:(key_ne) ltac:(key_ne) ltac:(key_ne))
    as Hor.
  rewrite Hf. split.
  - intros [= ->]. rewrite lookup_empty in Hst, Hrep, Hd, Hand, Hor.
    destruct (str_field query_obj (u "status")); [done|].
    destruct (str_field query_obj (u "reported_by")); [done|].
    destruct (date_bound query_obj (u "date_start")),
      (date_bound query_obj (u "date_end")); try done.
    destruct (str_field query_obj (u "crime_type")),
      (str_field query_obj (u "location")); simpl in *; done.
  - intros (Hc & Hl & Hds & Hde & Hs & Hr). f_equal.
    apply map_eq. intros key. rewrite lookup_empty.
    destruct (decide (key = u "date")) as [->|?];
      [by rewrite Hd, Hds, Hde|].
    destruct (decide (key = u "status")) as [->|?]; [by rewrite Hst, Hs|].
    destruct (decide (key = u "reported_by")) as [->|?];
      [by rewrite Hrep, Hr|].
    rewrite Htext, Hc, Hl by done. apply lookup_empty.
Qed.

(** X9: A crime type that is present, true and not a string (a number, a list of
    strings) makes the filter builder raise [AttributeError];
    [process_dynamic_data] then returns the empty list for that query. *)
Theorem build_search_filters_crime_type_not_str (query_obj : dict)
    (value : pyval) (search_query : option pystr) :
  query_obj !! u "crime_type" = Some value →
  truthy value = true →
  (∀ s, value ≠ VStr s) →
  build_search_filters query_obj = Raise AttributeError
  ∧ process_dynamic_data (VDict query_obj) search_query = [].
Proof.
  intros Hc Ht Hns.
  assert (∀ d : dict, d !! u "crime_type" = Some value →
            build_search_filters d = Raise AttributeError) as Hraise.
  { intros d Hd. unfold build_search_filters.
    rewrite (dict_get_Some _ _ _ Hd), Ht.
    destruct value; try done. by destruct (Hns s). }
  split; [by apply Hraise|].
  unfold process_dynamic_data, process_dynamic_data_body, detect_data_format.
  rewrite (proj2 (existsb_has_key query_obj query_fields)).
  - simpl. rewrite Hraise; [done|].
    rewrite normalize_query_object_lookup, Hc. simpl. unfold normalize_value.
    destruct value as [| | | |s|[|]| |]; try done. by destruct (Hns s).
  - exists (u "crime_type"). split; [|by rewrite Hc].
    apply list_elem_of_In. vm_compute. tauto.
Qed.

(** ** [build_mongo_query] *)

(** X10: For a structured query, [build_mongo_query] matches the category on the
    one field [crime_category] and the location on the three fields [city],
    [location] and [address], both with the lower-cased value as pattern;
    the two stand side by side at the top level and there is never an
    ["$and"]. *)
Theorem build_mongo_query_text (parsed_query : dict) :
  StructuredQuery parsed_query →
  ∃ mongo_query,
    build_mongo_query parsed_query = Ok mongo_query
    ∧ mongo_query !! u "crime_category"
        = (λ c, regex_i (VStr (lower c)))
            <$> str_field parsed_query (u "crime_category")
    ∧ mongo_query !! u "$or"
        = (λ l, VList [field_regex (u "city") (lower l);
                       field_regex (u "location") (lower l);
                       field_regex (u "address") (lower l)])
            <$> str_field parsed_query (u "location")
    ∧ mongo_query !! u "$and" = None.
Proof.
  intros Hq.
  destruct (build_mongo_query_entries _ Hq) as (m & Hm & Htext & _).
  exists m. split; [done|]. rewrite !Htext by key_ne.
  destruct (str_field parsed_query (u "crime_category")),
    (str_field parsed_query (u "location")); simpl;
    rewrite ?lookup_insert_eq, ?lookup_insert_ne, ?lookup_singleton_eq,
      ?lookup_singleton_ne, ?lookup_empty by key_ne; done.
Qed.

(** X11: [build_mongo_query] reads [crime_category], [location], [date_start],
    [date_end], [status] and [reported_by] and nothing else; [crime_type] in
    the query is ignored. *)
Theorem build_mongo_query_reads_six_fields (parsed_query parsed_query' : dict) :
  (∀ field,
     field ∈ [u "crime_category"; u "location"; u "date_start"; u "date_end";
              u "status"; u "reported_by"] →
     parsed_query !! field = parsed_query' !! field) →
  build_mongo_query parsed_query = build_mongo_query parsed_query'.
Proof.
  intros Hagree.
  assert (∀ field,
            field ∈ [u "crime_category"; u "location"; u "date_start";
                     u "date_end"; u "status"; u "reported_by"] →
            dict_get parsed_query field = dict_get parsed_query' field) as Hget.
  { intros field Hin. by apply dict_get_agree, Hagree. }
  unfold build_mongo_query, build_date_filter, add_status_filters.
  rewrite !(Hget (u "crime_category")), !(Hget (u "location")),
    !(Hget (u "date_start")), !(Hget (u "date_end")),
    !(Hget (u "status")), !(Hget (u "reported_by")); [done|..];
    apply list_elem_of_In; vm_compute; tauto.
Qed.

(** X12: The two filter builders agree on dates, status and reporter: for a
    structured query the entries ["date"], ["status"] and ["reported_by"] of
    the two filters are the same. *)
Theorem builders_agree_on_common_fields (query_obj : dict) :
  StructuredQuery query_obj →
  ∃ filters mongo_query,
    build_search_filters query_obj = Ok filters
    ∧ build_mongo_query query_obj = Ok mongo_query
    ∧ ∀ key, key ∈ [u "date"; u "status"; u "reported_by"] →
        filters !! key = mongo_query !! key.
Proof.
  intros Hq.
  destruct (build_search_filters_entries _ Hq) as (f & Hf & _ & Hd & Hs & Hr).
  destruct (build_mongo_query_entries _ Hq) as (m & Hm & _ & Hd' & Hs' & Hr').
  exists f, m. split; [done|]. split; [done|].
  intros key. rewrite !elem_of_cons, elem_of_nil.
  intros [-> | [-> | [-> | []]]]; congruence.
Qed.

End FiltersMore.

(** ** The dispatcher, continued *)

Section DispatcherMore.
Context `{PyBuiltins}.

Lemma as_records_fmap (records : list dict) :
  as_records (VDict <$> records) = Ok records.
Proof.
  induction records as [|record rest IH]; [done|].
  csimpl. by rewrite IH.
Qed.

Lemma as_records_Ok (l : list pyval) (records : list dict) :
  as_records l = Ok records → l = VDict <$> records.
Proof.
  revert records. induction l as [|v l IH]; intros records; simpl.
  - by intros [= <-].
  - destruct v; try done. destruct (as_records l) as [rs|]; [|done].
    csimpl. intros [= <-]. by rewrite (IH rs).
Qed.

Lemma as_records_not_dict (l : list pyval) (v : pyval) :
  v ∈ l → (∀ d, v ≠ VDict d) → ∃ e, as_records l = Raise e.
Proof.
  intros Hin Hv. destruct (as_records l) as [records|e] eqn:Hl; [|by exists e].
  apply as_records_Ok in Hl as ->.
  apply list_elem_of_fmap in Hin as (d & -> & _). by destruct (Hv d).
Qed.

(** The search step of the record branch. *)
Lemma search_step (records : list dict) (search_query : option pystr) :
  match search_query with
  | None | Some [] => records
  | Some _ => search_record_array records search_query
  end = search_record_array records search_query.
Proof. by destruct search_query as [[|]|]. Qed.

(** X13: A list of records is canonicalized first and searched second, so the
    search sees ["N/A"] where a value was null or blank; with no search text
    the result has one record per input record. *)
Theorem process_dynamic_data_records (records : list dict)
    (search_query : option pystr) :
  process_dynamic_data (VList (VDict <$> records)) search_query
    = VDict <$> search_record_array (handle_null_empty_fields records)
                  search_query
  ∧ length (process_dynamic_data (VList (VDict <$> records)) None)
    = length records.
Proof.
  assert (∀ q, process_dynamic_data (VList (VDict <$> records)) q
               = VDict <$> search_record_array
                             (handle_null_empty_fields records) q) as Hp.
  { intros q. unfold process_dynamic_data, process_dynamic_data_body. simpl.
    rewrite as_records_fmap. simpl. by rewrite search_step. }
  split; [apply Hp|].
  rewrite Hp. simpl.
  by rewrite length_fmap, handle_null_empty_fields_fmap, length_fmap.
Qed.

(** X14: One element that is not a mapping spoils the whole list: the result is
    the empty list, whatever the other elements are. *)
Theorem process_dynamic_data_not_a_record (l : list pyval) (v : pyval)
    (search_query : option pystr) :
  v ∈ l → (∀ d, v ≠ VDict d) →
  process_dynamic_data (VList l) search_query = [].
Proof.
  intros Hin Hv. unfold process_dynamic_data, process_dynamic_data_body. simpl.
  destruct (as_records_not_dict l v Hin Hv) as [e ->]. done.
Qed.

(** X15: A single mapping that has none of the six query fields is handled as the
    one-element list that holds it. *)
Theorem process_dynamic_data_single_record (record : dict)
    (search_query : option pystr) :
  (∀ field, field ∈ query_fields → record !! field = None) →
  process_dynamic_data (VDict record) search_query
    = process_dynamic_data (VList [VDict record]) search_query.
Proof.
  intros Hnone.
  unfold process_dynamic_data, process_dynamic_data_body, detect_data_format.
  destruct (existsb (has_key record) query_fields) eqn:Hex; [|done].
  apply existsb_has_key in Hex as (field & Hin & [value Hd]).
  by rewrite (Hnone field Hin) in Hd.
Qed.

Lemma normalize_query_object_structured (query_obj : dict) :
  StructuredQuery query_obj → StructuredQuery (normalize_query_object query_obj).
Proof.
  intros Hq key value'. rewrite normalize_query_object_lookup.
  destruct (query_obj !! key) as [value|] eqn:Hkey; [|done]. simpl.
  unfold normalize_value. destruct (is_filled value); [|done]. intros [= <-].
  destruct (Hq _ _ Hkey) as [-> | [s ->]]; eauto.
Qed.

(** X16: A structured mapping that has one of the six query fields gives exactly
    one descriptor, tagged ["query_object"], whose filter is the one built
    from the normalized query; the search text plays no part. *)
Theorem process_dynamic_data_query_object (query_obj : dict) (field : pystr)
    (search_query : option pystr) :
  StructuredQuery query_obj →
  field ∈ query_fields → is_Some (query_obj !! field) →
  ∃ filters,
    build_search_filters (normalize_query_object query_obj) = Ok filters
    ∧ process_dynamic_data (VDict query_obj) search_query
        = [VDict {[ u "query_filters" := VDict filters;
                    u "format" := VStr (u "query_object") ]}].
Proof.
  intros Hq Hin Hsome.
  pose proof (normalize_query_object_structured _ Hq) as Hn.
  eexists. split; [by apply build_search_filters_structured|].
  unfold process_dynamic_data, process_dynamic_data_body, detect_data_format.
  rewrite (proj2 (existsb_has_key query_obj query_fields)) by eauto.
  simpl. by rewrite (build_search_filters_structured _ Hn).
Qed.

(** X17: Every element of a result of [process_dynamic_data] is a mapping. *)
Theorem process_dynamic_data_mappings (data : pyval)
    (search_query : option pystr) :
  Forall (λ v, ∃ d, v = VDict d) (process_dynamic_data data search_query).
Proof.
  unfold process_dynamic_data.
  destruct (process_dynamic_data_body data search_query) as [results|] eqn:Hb;
    [|constructor].
  unfold process_dynamic_data_body in Hb.
  destruct (detect_data_format data) as [[]|]; simpl in Hb; [| |done].
  - destruct data; try done.
    destruct (build_search_filters _); [|done].
    injection Hb as <-. repeat constructor. eauto.
  - destruct (as_records _); [|done]. injection Hb as <-.
    apply Forall_fmap, Forall_true. simpl. eauto.
Qed.

End DispatcherMore.

(** ** [is_sparse_query_format] *)

(** [is_sparse_query_format] answers [True] exactly for the payloads that
    [detect_data_format] classifies as a query object. *)
Lemma is_sparse_query_format_detect (data : pyval) :
  is_sparse_query_format data = true ↔
  detect_data_format data = Ok query_object.
Proof.
  unfold is_sparse_query_format, detect_data_format.
  destruct data; try done. by destruct (existsb _ _).
Qed.

(** ** The record-array search, continued *)

Section SearchMore.
Context `{PyBuiltins}.

Lemma search_record_array_filter (records : list dict) (c : N) (s : pystr) :
  search_record_array records (Some (c :: s))
    = List.filter (search_keeps (c :: s)) records.
Proof.
  unfold search_record_array. by rewrite search_records_loop_filter.
Qed.

Lemma filter_filter_same {A} (f : A → bool) (l : list A) :
  List.filter f (List.filter f l) = List.filter f l.
Proof.
  induction l as [|x l IH]; [done|]. simpl.
  destruct (f x) eqn:Hx; [|done]. simpl. by rewrite Hx, IH.
Qed.

(** X18: Searching a result again with the same text changes nothing, and the
    search of a concatenation is the concatenation of the searches: whether
    a record is kept does not depend on the other records. *)
Theorem search_record_array_idempotent (records records' : list dict)
    (search_terms : option pystr) :
  search_record_array (search_record_array records search_terms) search_terms
    = search_record_array records search_terms
  ∧ search_record_array (records ++ records') search_terms
    = search_record_array records search_terms
      ++ search_record_array records' search_terms.
Proof.
  destruct search_terms as [[|c s]|]; try done.
  rewrite !search_record_array_filter. split.
  - apply filter_filter_same.
  - apply List.filter_app.
Qed.

(** X19: A text without a single word (only whitespace) is not the empty text: it
    selects no record at all, where the empty text selects every record. *)
Theorem search_record_array_no_words (records : list dict)
    (search_terms : pystr) :
  search_terms ≠ [] →
  str_split (lower search_terms) = [] →
  search_record_array records (Some search_terms) = [].
Proof.
  intros Hne Hsplit. destruct search_terms as [|c s]; [done|].
  rewrite search_record_array_filter.
  induction records as [|record rest IH]; [done|]. simpl.
  unfold search_keeps at 1. rewrite Hsplit, search_fields_loop_existsb.
  replace (existsb _ (map_to_list record)) with false; [done|].
  symmetry. apply not_true_is_false. rewrite existsb_exists.
  intros ([field value] & _ & Hm). simpl in Hm. by destruct value.
Qed.

(** *** [partial_match_text_fields] *)

Lemma partial_match_loop_filter (records : list dict) (field_name : pystr)
    (search_value_lower : pystr) (matching_records : list dict) :
  partial_match_loop records field_name search_value_lower matching_records
    = matching_records
      ++ List.filter
           (λ record,
              match dict_get record field_name with
              | VStr (c :: s) => contains search_value_lower (lower (c :: s))
              | _ => false
              end)
           records.
Proof.
  revert matching_records.
  induction records as [|record rest IH]; intros matching_records; simpl.
  - by rewrite app_nil_r.
  - rewrite IH. destruct (dict_get record field_name) as [| | | |[|c s]| | |];
      simpl; try done.
    destruct (contains search_value_lower (lower (c :: s)));
      [by rewrite <- app_assoc | done].
Qed.

(** X20: With no search value, or the empty one, [partial_match_text_fields]
    returns the record list it was given.  Otherwise it returns, in their
    input order, the records that match on the field; a record that lacks
    the field, or holds there [None], the empty string or a value that is
    not a string, is never returned. *)
Theorem partial_match_text_fields_spec (records : list dict)
    (field_name : pystr) :
  partial_match_text_fields records field_name None = records
  ∧ partial_match_text_fields records field_name (Some []) = records
  ∧ ∀ search_value, search_value ≠ [] →
      ∃ keep : dict → bool,
        (∀ record,
           keep record = true ↔ field_matches field_name search_value record)
        ∧ partial_match_text_fields records field_name (Some search_value)
            = List.filter keep records.
Proof.
  split; [done|]. split; [done|].
  intros [|c0 s0] Hne; [done|].
  exists (λ record,
            match dict_get record field_name with
            | VStr (c :: s) => contains (lower (c0 :: s0)) (lower (c :: s))
            | _ => false
            end).
  split; [|unfold partial_match_text_fields;
           by rewrite partial_match_loop_filter].
  intros record. unfold field_matches, dict_get.
  destruct (record !! field_name) as [value|]; simpl.
  - destruct value as [| | | |[|c s]| | |];
      try (split; [done | by intros (? & [= <-] & ? & ?)]);
      try (split; [done | by intros (? & [=] & ? & ?)]).
    rewrite contains_spec. split.
    + intros Hsub. by exists (c :: s).
    + by intros (? & [= <-] & _ & Hsub).
  - split; [done | by intros (? & [=] & _)].
Qed.

End SearchMore.

(** ** The synonym normalizer, continued *)

Lemma synonyms_loop_entry (items : list (pystr * pystr)) (text standard : pystr) :
  synonyms_loop items text = Some standard →
  ∃ synonym, (synonym, standard) ∈ items.
Proof.
  intros (before & synonym & after & -> & _)%synonyms_loop_Some.
  exists synonym. apply elem_of_app. right. left.
Qed.

Lemma crime_synonyms_standard (synonym standard : pystr) :
  (synonym, standard) ∈ crime_synonyms → standard ∈ canonical_categories.
Proof.
  assert (forallb (λ entry, bool_decide (entry.2 ∈ canonical_categories))
                  crime_synonyms = true) as Hall by (by vm_compute).
  rewrite forallb_forall in Hall. intros Hin%list_elem_of_In.
  apply Hall in Hin. by apply bool_decide_eq_true in Hin.
Qed.

Lemma canonical_categories_fixed (c : pystr) :
  c ∈ canonical_categories →
  c ≠ []
  ∧ (synonyms_loop crime_synonyms c = Some c
     ∨ synonyms_loop crime_synonyms c = None).
Proof.
  unfold canonical_categories. rewrite !elem_of_cons, elem_of_nil.
  intros [-> | [-> | [-> | [-> | [-> | [-> | [-> | []]]]]]]];
    (split; [by vm_compute|]); vm_compute; auto.
Qed.

Lemma structured_query_insert (d : dict) (key s : pystr) :
  StructuredQuery d → StructuredQuery (<[key := VStr s]> d).
Proof.
  intros Hd k v. destruct (decide (key = k)) as [->|Hne].
  - rewrite lookup_insert_eq. intros [= <-]. eauto.
  - rewrite lookup_insert_ne by done. apply Hd.
Qed.

Section SynonymsMore.
Context `{PyBuiltins}.

(** What [translate_synonyms] returns on a structured query object. *)
Lemma translate_synonyms_structured (σ : store) (query_dict : loc) (d : dict) :
  σ !! query_dict = Some d →
  StructuredQuery d →
  translate_synonyms query_dict σ
    = Ok (query_dict,
          match str_field d (u "crime_category")
                ≫= λ s, synonyms_loop crime_synonyms (lower s) with
          | Some standard =>
              <[query_dict := <[u "crime_category" := VStr standard]> d]> σ
          | None => σ
          end).
Proof.
  intros Hσ Hq. unfold translate_synonyms. rewrite Hσ.
  pose proof (structured_dict_get _ (u "crime_category") Hq) as Hc.
  destruct (str_field d (u "crime_category")) as [s|].
  - destruct Hc as [-> ->]. cbn [str_lower mbind result_bind option_bind].
    by destruct (synonyms_loop crime_synonyms (lower s)).
  - by rewrite Hc.
Qed.

(** X21: When a call changes the category, the new value is one of the seven
    standard terms; otherwise the object is as it was. *)
Theorem translate_synonyms_canonical (σ : store) (query_dict : loc) (d : dict) :
  σ !! query_dict = Some d →
  StructuredQuery d →
  ∃ d',
    translate_synonyms query_dict σ = Ok (query_dict, <[query_dict := d']> σ)
    ∧ (d' = d
       ∨ ∃ c, c ∈ canonical_categories
              ∧ d' = <[u "crime_category" := VStr c]> d).
Proof.
  intros Hσ Hq. rewrite (translate_synonyms_structured _ _ _ Hσ Hq).
  destruct (str_field d (u "crime_category")) as [s|];
    cbn [mbind option_bind].
  - destruct (synonyms_loop crime_synonyms (lower s)) as [standard|] eqn:Hloop.
    + eexists. split; [done|]. right. exists standard. split; [|done].
      apply synonyms_loop_entry in Hloop as [synonym Hin].
      by eapply crime_synonyms_standard.
    + exists d. split; [by rewrite insert_id | by left].
  - exists d. split; [by rewrite insert_id | by left].
Qed.

(** X22: Translating twice is translating once, provided lower-casing leaves the
    seven standard terms as they are. *)
Theorem translate_synonyms_idempotent (σ : store) (query_dict : loc)
    (d : dict) :
  σ !! query_dict = Some d →
  StructuredQuery d →
  (∀ c, c ∈ canonical_categories → lower c = c) →
  ∃ σ',
    translate_synonyms query_dict σ = Ok (query_dict, σ')
    ∧ translate_synonyms query_dict σ' = Ok (query_dict, σ').
Proof.
  intros Hσ Hq Hlower. rewrite (translate_synonyms_structured _ _ _ Hσ Hq).
  destruct (str_field d (u "crime_category")) as [s|] eqn:Hs;
    cbn [mbind option_bind].
  - destruct (synonyms_loop crime_synonyms (lower s)) as [standard|] eqn:Hloop.
    + eexists. split; [done|].
      pose proof Hloop as [synonym Hin]%synonyms_loop_entry.
      apply crime_synonyms_standard in Hin.
      destruct (canonical_categories_fixed _ Hin) as [Hne Hfix].
      rewrite (translate_synonyms_structured _ _
                 (<[u "crime_category" := VStr standard]> d));
        [|apply lookup_insert_eq | by apply structured_query_insert].
      unfold str_field. rewrite lookup_insert_eq.
      destruct standard as [|c0 standard0]; [done|]. cbn [mbind option_bind].
      rewrite (Hlower _ Hin).
      destruct Hfix as [-> | ->]; [|done].
      by rewrite !insert_insert_eq.
    + exists σ. split; [done|].
      rewrite (translate_synonyms_structured _ _ _ Hσ Hq), Hs.
      cbn [mbind option_bind]. by rewrite Hloop.
  - exists σ. split; [done|].
    by rewrite (translate_synonyms_structured _ _ _ Hσ Hq), Hs.
Qed.

(** X23: ["theft"] is the first entry of the table: a category in whose
    lower-cased value it occurs becomes ["theft"], whatever other synonyms
    occur in it. *)
Theorem translate_synonyms_theft_first (σ : store) (query_dict : loc)
    (d : dict) (s : pystr) :
  σ !! query_dict = Some d →
  d !! u "crime_category" = Some (VStr s) → s ≠ [] →
  is_substring (u "theft") (lower s) →
  translate_synonyms query_dict σ
    = Ok (query_dict,
          <[query_dict := <[u "crime_category" := VStr (u "theft")]> d]> σ).
Proof.
  intros Hσ Hd Hne Hsub. unfold translate_synonyms.
  rewrite Hσ, (dict_get_Some _ _ _ Hd).
  destruct s as [|c s]; [done|]. cbn [truthy str_lower mbind result_bind].
  replace (synonyms_loop crime_synonyms (lower (c :: s)))
    with (Some (u "theft")); [done|].
  symmetry. apply synonyms_loop_Some.
  exists [], (u "theft"), (tail crime_synonyms).
  split; [by vm_compute|]. split; [done|].
  intros ?? Hin. by apply elem_of_nil in Hin.
Qed.

Lemma mongo_text_filters_category (c : pystr) (location : option pystr) :
  mongo_text_filters (Some c) location !! u "crime_category"
    = Some (regex_i (VStr (lower c))).
Proof.
  destruct location; simpl;
    by rewrite ?lookup_insert_ne by key_ne; rewrite lookup_singleton_eq.
Qed.

(** X24: [main.py] builds the store query from the object [translate_synonyms]
    has worked on: for a structured query with a non-empty category, the
    pattern matched against [crime_category] is the lower-cased standard term
    when a synonym occurs in the category, and the lower-cased category
    otherwise. *)
Theorem synonyms_then_mongo_query (σ : store) (query_dict : loc) (d : dict)
    (s : pystr) :
  σ !! query_dict = Some d →
  StructuredQuery d →
  str_field d (u "crime_category") = Some s →
  ∃ σ' d' mongo_query,
    translate_synonyms query_dict σ = Ok (query_dict, σ')
    ∧ σ' !! query_dict = Some d'
    ∧ build_mongo_query d' = Ok mongo_query
    ∧ mongo_query !! u "crime_category"
        = Some (regex_i (VStr (lower
            (default s (synonyms_loop crime_synonyms (lower s)))))).
Proof.
  intros Hσ Hq Hs. rewrite (translate_synonyms_structured _ _ _ Hσ Hq), Hs.
  cbn [mbind option_bind].
  destruct (synonyms_loop crime_synonyms (lower s)) as [standard|] eqn:Hloop.
  - pose proof Hloop as [synonym Hin]%synonyms_loop_entry.
    apply crime_synonyms_standard, canonical_categories_fixed in Hin as [Hne _].
    pose proof (structured_query_insert d (u "crime_category") standard Hq)
      as Hq'.
    destruct (build_mongo_query_entries _ Hq') as (m & Hm & Htext & _).
    eexists _, _, m. split; [done|].
    split; [apply lookup_insert_eq|]. split; [done|].
    assert (str_field (<[u "crime_category" := VStr standard]> d)
              (u "crime_category") = Some standard) as Hs'.
    { unfold str_field. rewrite lookup_insert_eq. by destruct standard. }
    rewrite Htext, Hs' by key_ne. apply mongo_text_filters_category.
  - destruct (build_mongo_query_entries _ Hq) as (m & Hm & Htext & _).
    exists σ, d, m. split; [done|]. split; [done|]. split; [done|].
    rewrite Htext, Hs by key_ne. apply mongo_text_filters_category.
Qed.

End SynonymsMore.

(** ** [query_with_dynamic_handler] *)

Section DynamicQueryMore.
Context `{PyBuiltins}.
Variable query_crime_data : dict → list dict.

(** X25: For a list, or a mapping with none of the six query fields, the payload
    itself is not looked at: the whole collection is fetched, searched when
    there is a search text, and canonicalized last (so the search does not
    see ["N/A"]). *)
Theorem query_with_dynamic_handler_records (query_data : pyval)
    (search_terms : option pystr) :
  detect_data_format query_data = Ok record_array →
  query_with_dynamic_handler query_crime_data query_data search_terms
    = handle_null_empty_fields
        (search_record_array (query_crime_data ∅) search_terms).
Proof.
  intros Hdetect.
  unfold query_with_dynamic_handler, query_with_dynamic_handler_body.
  rewrite Hdetect. simpl. by rewrite search_step.
Qed.

(** X26: For a structured mapping with one of the six query fields, the result is
    what the collection returns for the filter [build_mongo_query] makes of
    the normalized query; the search text plays no part and the records are
    not canonicalized. *)
Theorem query_with_dynamic_handler_query (query_obj : dict) (field : pystr)
    (search_terms : option pystr) :
  StructuredQuery query_obj →
  field ∈ query_fields → is_Some (query_obj !! field) →
  ∃ mongo_query,
    build_mongo_query (normalize_query_object query_obj) = Ok mongo_query
    ∧ query_with_dynamic_handler query_crime_data (VDict query_obj)
        search_terms
      = query_crime_data mongo_query.
Proof.
  intros Hq Hin Hsome.
  pose proof (normalize_query_object_structured _ Hq) as Hn.
  eexists. split; [by apply build_mongo_query_structured|].
  unfold query_with_dynamic_handler, query_with_dynamic_handler_body,
    detect_data_format.
  rewrite (proj2 (existsb_has_key query_obj query_fields)) by eauto.
  simpl. by rewrite (build_mongo_query_structured _ Hn).
Qed.

End DynamicQueryMore.

(** ** The page of results *)

Lemma take_add {A} (l : list A) (a b : nat) :
  take (a + b) l = take a l ++ take b (drop a l).
Proof.
  revert l. induction a as [|a IH]; intros l; [done|].
  destruct l as [|x l]; simpl; [by rewrite take_nil|]. by rewrite IH.
Qed.

(** From page 1 on, a page is the next [results_per_page] results after the
    pages before it. *)
Lemma paginated_results_take_drop {A} (results : list A)
    (page_number results_per_page : Z) :
  (1 ≤ page_number)%Z → (0 ≤ results_per_page)%Z →
  paginated_results results page_number results_per_page
    = take (Z.to_nat results_per_page)
        (drop (Z.to_nat ((page_number - 1) * results_per_page)) results).
Proof.
  intros Hp Hr.
  unfold paginated_results, py_slice, end_idx, start_idx, slice_index.
  set (n := Z.of_nat (length results)).
  set (start := ((page_number - 1) * results_per_page)%Z).
  assert (0 ≤ start)%Z as Hstart by (subst start; nia).
  assert (0 ≤ n)%Z as Hn by (subst n; lia).
  destruct (Z.ltb_spec start 0) as [|_]; [lia|].
  destruct (Z.ltb_spec (Z.min (start + results_per_page) n) 0) as [|_]; [lia|].
  destruct (decide (n ≤ start)%Z) as [Hge|Hlt].
  - rewrite !drop_ge by (subst n; lia). by rewrite !take_nil.
  - replace (Z.to_nat (Z.min start n)) with (Z.to_nat start) by lia.
    destruct (decide (start + results_per_page ≤ n)%Z) as [Hle|Hgt].
    + f_equal. lia.
    + rewrite !take_ge; [done|rewrite length_drop; subst n; lia..].
Qed.

(** X27: With at least one result per page, the pages 1 to [n] laid end to end
    are the first [n * results_per_page] results: no result is shown twice
    or left out, and each page has at most [results_per_page] results. *)
Theorem paginated_results_cover {A} (results : list A) (results_per_page : Z)
    (n : nat) :
  (1 ≤ results_per_page)%Z →
  concat ((λ page_number : nat,
             paginated_results results (Z.of_nat page_number)
               results_per_page) <$> seq 1 n)
    = take (n * Z.to_nat results_per_page) results
  ∧ ∀ page_number : Z, (1 ≤ page_number)%Z →
      (Z.of_nat (length (paginated_results results page_number
                           results_per_page)) ≤ results_per_page)%Z.
Proof.
  intros Hr. split.
  - induction n as [|n IH]; [done|].
    rewrite seq_S, fmap_app, concat_app, IH. simpl. rewrite app_nil_r.
    rewrite paginated_results_take_drop by lia.
    replace (Z.to_nat ((Z.of_nat (S n) - 1) * results_per_page))
      with (n * Z.to_nat results_per_page)%nat by nia.
    rewrite <- take_add. f_equal. lia.
  - intros page_number Hp. rewrite paginated_results_take_drop by lia.
    rewrite length_take. lia.
Qed.

(** ** [process_variable_json] *)

Section VariableJson.
Context `{PyBuiltins}.
Variable json_loads : pystr → option pyval.

(** X28: Text that does not decode, or that decodes to something that is neither
    a mapping nor a list, gives the empty list. *)
Theorem process_variable_json_unusable (s : pystr)
    (search_query : option pystr) :
  match json_loads s with
  | Some (VDict _) | Some (VList _) => False
  | _ => True
  end →
  process_variable_json json_loads (VStr s) search_query = [].
Proof.
  unfold process_variable_json.
  destruct (json_loads s) as [[]|]; done.
Qed.

End VariableJson.

(** ** Witnesses *)

Import Samples.

Lemma end_to_end_query_structured : StructuredQuery end_to_end_query.
Proof. apply structured_query_intro. by vm_compute. Qed.

Lemma full_query_structured : StructuredQuery full_query.
Proof. apply structured_query_intro. by vm_compute. Qed.

Lemma sparse_query_structured : StructuredQuery TestData.sparse_query.
Proof. apply structured_query_intro. by vm_compute. Qed.

Lemma not_a_query_field (key field : pystr) :
  forallb (λ f, negb (bool_decide (f = key))) query_fields = true →
  field ∈ query_fields → key ≠ field.
Proof.
  rewrite forallb_forall. intros Hall Hin%list_elem_of_In ->.
  apply Hall in Hin. by rewrite bool_decide_eq_true_2 in Hin.
Qed.

Lemma build_search_filters_reads_six_fields_witness :
  build_search_filters (H := AsciiBuiltins.builtins) end_to_end_query
  = build_search_filters (H := AsciiBuiltins.builtins)
      (<[u "crime_category" := VStr (u "fraud")]> end_to_end_query).
Proof.
  apply (build_search_filters_reads_six_fields (H := AsciiBuiltins.builtins)).
  intros field Hin. symmetry. apply lookup_insert_ne.
  by apply not_a_query_field.
Defined.

Lemma build_search_filters_status_witness :
  ∃ filters,
    build_search_filters (H := AsciiBuiltins.builtins) end_to_end_query
      = Ok filters
    ∧ filters !! u "status" = Some (regex_i (VStr (u "open")))
    ∧ filters !! u "reported_by" = None.
Proof.
  exact (build_search_filters_status (H := AsciiBuiltins.builtins) _
           end_to_end_query_structured).
Defined.

Lemma build_search_filters_one_group_witness :
  ∃ filters,
    build_search_filters (H := AsciiBuiltins.builtins) TestData.sparse_query
      = Ok filters
    ∧ (∀ location,
         str_field TestData.sparse_query (u "crime_type") = None →
         str_field TestData.sparse_query (u "location") = Some location →
         filters !! u "$or"
           = Some (VList (location_conditions (ascii_lower location)))
         ∧ filters !! u "$and" = None)
    ∧ (∀ crime_type,
         str_field TestData.sparse_query (u "crime_type") = Some crime_type →
         str_field TestData.sparse_query (u "location") = None →
         filters !! u "$or"
           = Some (VList (crime_type_conditions (ascii_lower crime_type)))
         ∧ filters !! u "$and" = None)
    ∧ (str_field TestData.sparse_query (u "crime_type") = None →
       str_field TestData.sparse_query (u "location") = None →
       filters !! u "$or" = None ∧ filters !! u "$and" = None).
Proof.
  exact (build_search_filters_one_group (H := AsciiBuiltins.builtins) _
           sparse_query_structured).
Defined.

Lemma build_search_filters_keys_witness :
  ∃ filters,
    build_search_filters (H := AsciiBuiltins.builtins) end_to_end_query
      = Ok filters
    ∧ (∀ key, is_Some (filters !! key) →
         key ∈ [u "$and"; u "$or"; u "date"; u "status"; u "reported_by"])
    ∧ (filters !! u "$and" = None ∨ filters !! u "$or" = None).
Proof.
  exact (build_search_filters_keys (H := AsciiBuiltins.builtins) _
           end_to_end_query_structured).
Defined.

Lemma build_search_filters_empty_witness :
  build_search_filters (H := AsciiBuiltins.builtins)
    {[ u "crime_type" := VNone; u "date_start" := VStr (u "soon") ]} = Ok ∅ ↔
  str_field {[ u "crime_type" := VNone; u "date_start" := VStr (u "soon") ]}
    (u "crime_type") = None
  ∧ str_field {[ u "crime_type" := VNone; u "date_start" := VStr (u "soon") ]}
      (u "location") = None
  ∧ date_bound (H := AsciiBuiltins.builtins)
      {[ u "crime_type" := VNone; u "date_start" := VStr (u "soon") ]}
      (u "date_start") = None
  ∧ date_bound (H := AsciiBuiltins.builtins)
      {[ u "crime_type" := VNone; u "date_start" := VStr (u "soon") ]}
      (u "date_end") = None
  ∧ str_field {[ u "crime_type" := VNone; u "date_start" := VStr (u "soon") ]}
      (u "status") = None
  ∧ str_field {[ u "crime_type" := VNone; u "date_start" := VStr (u "soon") ]}
      (u "reported_by") = None.
Proof.
  apply (build_search_filters_empty (H := AsciiBuiltins.builtins)).
  apply structured_query_intro. by vm_compute.
Defined.

Lemma build_search_filters_crime_type_not_str_witness :
  build_search_filters (H := AsciiBuiltins.builtins)
    {[ u "crime_type" := VList [VStr (u "theft")] ]} = Raise AttributeError
  ∧ process_dynamic_data (H := AsciiBuiltins.builtins)
      (VDict {[ u "crime_type" := VList [VStr (u "theft")] ]}) None = [].
Proof.
  apply (build_search_filters_crime_type_not_str (H := AsciiBuiltins.builtins)
           _ (VList [VStr (u "theft")])).
  - apply lookup_singleton_eq.
  - done.
  - done.
Defined.

Lemma build_mongo_query_text_witness :
  ∃ mongo_query,
    build_mongo_query (H := AsciiBuiltins.builtins) full_query = Ok mongo_query
    ∧ mongo_query !! u "crime_category" = Some (regex_i (VStr (u "theft")))
    ∧ mongo_query !! u "$or"
        = Some (VList [field_regex (u "city") (u "mumbai");
                       field_regex (u "location") (u "mumbai");
                       field_regex (u "address") (u "mumbai")])
    ∧ mongo_query !! u "$and" = None.
Proof.
  exact (build_mongo_query_text (H := AsciiBuiltins.builtins) _
           full_query_structured).
Defined.

Lemma build_mongo_query_reads_six_fields_witness :
  build_mongo_query (H := AsciiBuiltins.builtins) full_query
  = build_mongo_query (H := AsciiBuiltins.builtins)
      (<[u "crime_type" := VStr (u "fraud")]> full_query).
Proof.
  apply (build_mongo_query_reads_six_fields (H := AsciiBuiltins.builtins)).
  intros field Hin. symmetry. apply lookup_insert_ne. intros <-.
  revert Hin. rewrite list_elem_of_In. vm_compute. intuition discriminate.
Defined.

Lemma builders_agree_on_common_fields_witness :
  ∃ filters mongo_query,
    build_search_filters (H := AsciiBuiltins.builtins) end_to_end_query
      = Ok filters
    ∧ build_mongo_query (H := AsciiBuiltins.builtins) end_to_end_query
        = Ok mongo_query
    ∧ ∀ key, key ∈ [u "date"; u "status"; u "reported_by"] →
        filters !! key = mongo_query !! key.
Proof.
  exact (builders_agree_on_common_fields (H := AsciiBuiltins.builtins) _
           end_to_end_query_structured).
Defined.

Lemma process_dynamic_data_not_a_record_witness :
  process_dynamic_data (H := AsciiBuiltins.builtins)
    (VList [VDict TestData.theft_record; VInt 7]) (Some (u "theft")) = [].
Proof.
  apply (process_dynamic_data_not_a_record (H := AsciiBuiltins.builtins)
           _ (VInt 7)).
  - right. left.
  - done.
Defined.

Lemma process_dynamic_data_single_record_witness :
  process_dynamic_data (H := AsciiBuiltins.builtins)
    (VDict {[ u "crime_category" := VStr (u "theft") ]}) None
  = process_dynamic_data (H := AsciiBuiltins.builtins)
      (VList [VDict {[ u "crime_category" := VStr (u "theft") ]}]) None.
Proof.
  apply (process_dynamic_data_single_record (H := AsciiBuiltins.builtins)).
  intros field Hin. apply lookup_singleton_ne. by apply not_a_query_field.
Defined.

Lemma process_dynamic_data_query_object_witness :
  ∃ filters,
    build_search_filters (H := AsciiBuiltins.builtins)
      (normalize_query_object end_to_end_query) = Ok filters
    ∧ process_dynamic_data (H := AsciiBuiltins.builtins)
        (VDict end_to_end_query) (Some (u "ignored"))
        = [VDict {[ u "query_filters" := VDict filters;
                    u "format" := VStr (u "query_object") ]}].
Proof.
  apply (process_dynamic_data_query_object (H := AsciiBuiltins.builtins)
           _ (u "status")).
  - apply end_to_end_query_structured.
  - apply list_elem_of_In. vm_compute. tauto.
  - eexists. by vm_compute.
Defined.

Lemma search_record_array_no_words_witness :
  search_record_array (H := AsciiBuiltins.builtins) TestData.sample_records
    (Some (u "   ")) = [].
Proof.
  apply (search_record_array_no_words (H := AsciiBuiltins.builtins)).
  - done.
  - done.
Defined.

Lemma translate_synonyms_canonical_witness :
  ∃ d',
    translate_synonyms (H := AsciiBuiltins.builtins) 1%nat
      {[ 1%nat := full_query ]}
      = Ok (1%nat, <[1%nat := d']> {[ 1%nat := full_query ]})
    ∧ (d' = full_query
       ∨ ∃ c, c ∈ canonical_categories
              ∧ d' = <[u "crime_category" := VStr c]> full_query).
Proof.
  exact (translate_synonyms_canonical (H := AsciiBuiltins.builtins)
           {[ 1%nat := full_query ]} 1%nat _ (lookup_singleton_eq _ _)
           full_query_structured).
Defined.

Lemma ascii_lower_canonical (c : pystr) :
  c ∈ canonical_categories → ascii_lower c = c.
Proof.
  unfold canonical_categories. rewrite !elem_of_cons, elem_of_nil.
  intros [-> | [-> | [-> | [-> | [-> | [-> | [-> | []]]]]]]]; by vm_compute.
Qed.

Lemma translate_synonyms_idempotent_witness :
  ∃ σ',
    translate_synonyms (H := AsciiBuiltins.builtins) 1%nat
      {[ 1%nat := {[ u "crime_category" := VStr (u "Stealing cars") ]} ]}
      = Ok (1%nat, σ')
    ∧ translate_synonyms (H := AsciiBuiltins.builtins) 1%nat σ'
      = Ok (1%nat, σ').
Proof.
  apply (translate_synonyms_idempotent (H := AsciiBuiltins.builtins)
           _ 1%nat {[ u "crime_category" := VStr (u "Stealing cars") ]}).
  - apply lookup_singleton_eq.
  - apply structured_query_intro. by vm_compute.
  - apply ascii_lower_canonical.
Defined.

Lemma translate_synonyms_theft_first_witness :
  translate_synonyms (H := AsciiBuiltins.builtins) 1%nat
    {[ 1%nat := {[ u "crime_category" := VStr (u "Robbery and theft") ]} ]}
  = Ok (1%nat,
        <[1%nat := <[u "crime_category" := VStr (u "theft")]>
                     {[ u "crime_category" := VStr (u "Robbery and theft") ]}]>
          {[ 1%nat := {[ u "crime_category" := VStr (u "Robbery and theft") ]} ]}).
Proof.
  apply (translate_synonyms_theft_first (H := AsciiBuiltins.builtins)
           _ 1%nat _ (u "Robbery and theft")).
  - apply lookup_singleton_eq.
  - apply lookup_singleton_eq.
  - done.
  - apply contains_spec. by vm_compute.
Defined.

Lemma synonyms_then_mongo_query_witness :
  ∃ σ' d' mongo_query,
    translate_synonyms (H := AsciiBuiltins.builtins) 1%nat
      {[ 1%nat := {[ u "crime_category" := VStr (u "Stealing") ]} ]}
      = Ok (1%nat, σ')
    ∧ σ' !! 1%nat = Some d'
    ∧ build_mongo_query (H := AsciiBuiltins.builtins) d' = Ok mongo_query
    ∧ mongo_query !! u "crime_category"
        = Some (regex_i (VStr (u "theft"))).
Proof.
  assert (Hq : StructuredQuery
                 {[ u "crime_category" := VStr (u "Stealing") ]}).
  { apply structured_query_intro. by vm_compute. }
  exact (synonyms_then_mongo_query (H := AsciiBuiltins.builtins)
           {[ 1%nat := {[ u "crime_category" := VStr (u "Stealing") ]} ]}
           1%nat _ (u "Stealing") (lookup_singleton_eq _ _) Hq eq_refl).
Defined.

Lemma query_with_dynamic_handler_records_witness :
  query_with_dynamic_handler (H := AsciiBuiltins.builtins)
    (λ _, TestData.sample_records)
    (VDict {[ u "crime_category" := VStr (u "theft") ]}) None
  = handle_null_empty_fields
      (search_record_array (H := AsciiBuiltins.builtins)
         TestData.sample_records None).
Proof.
  apply (query_with_dynamic_handler_records (H := AsciiBuiltins.builtins)
           (λ _, TestData.sample_records)).
  by vm_compute.
Defined.

Lemma query_with_dynamic_handler_query_witness :
  ∃ mongo_query,
    build_mongo_query (H := AsciiBuiltins.builtins)
      (normalize_query_object TestData.sparse_query) = Ok mongo_query
    ∧ query_with_dynamic_handler (H := AsciiBuiltins.builtins)
        (λ _, TestData.sample_records) (VDict TestData.sparse_query) None
      = TestData.sample_records.
Proof.
  apply (query_with_dynamic_handler_query (H := AsciiBuiltins.builtins)
           (λ _, TestData.sample_records) _ (u "location")).
  - apply sparse_query_structured.
  - apply list_elem_of_In. vm_compute. tauto.
  - eexists. by vm_compute.
Defined.

Lemma paginated_results_cover_witness :
  concat ((λ page_number : nat,
             paginated_results (seq 0 25) (Z.of_nat page_number) 10)
            <$> seq 1 3)
    = take (3 * Z.to_nat 10) (seq 0 25)
  ∧ ∀ page_number : Z, (1 ≤ page_number)%Z →
      (Z.of_nat (length (paginated_results (seq 0 25) page_number 10))
       ≤ 10)%Z.
Proof.
  apply (paginated_results_cover (seq 0 25) 10 3). done.
Defined.

Lemma process_variable_json_unusable_witness :
  process_variable_json (H := AsciiBuiltins.builtins) loads_42
    (VStr (u "42")) None = [].
Proof.
  apply (process_variable_json_unusable (H := AsciiBuiltins.builtins)
           loads_42 (u "42")).
  by vm_compute.
Defined.
